(** * Progress ledger of enhanced_progress_tracking.py

    A shallow embedding of the SQLite-backed progress, session and achievement
    tracking of [enhanced_progress_tracking.py], and the properties of the
    specification checked against it.

    Conventions.
    - A table is the list of its rows in rowid order, which is the order of a
      table scan.  No statement of the module deletes a row.
    - [CURRENT_TIMESTAMP] and [DATE('now')] read the clock, in seconds.  The
      statements of one call run back to back; every operation takes one
      reading, its first argument [now], for all of them.
    - Every Python function opens a connection of its own with
      [sqlite3.connect('career_coach.db')].  Python's [sqlite3] module begins
      a transaction before the first INSERT or UPDATE of a connection, and
      the transaction holds the write lock of the database file until
      [conn.commit()]; until then the statements act on the connection's
      private view.  A second connection that wants to write while the lock
      is held waits for its timeout and fails with
      [sqlite3.OperationalError: database is locked].  A function that is
      left by an exception does not close its connection: a lock that the
      connection holds stays held until the connection is closed or
      collected, which rolls its transaction back.
    - User ids are integers (the column is INTEGER, the ids are keys of the
      table of users), skill and course names and notes are text, minutes
      and percentages are Python integers.  An integer that is bound to a
      statement must fit 64 bits, otherwise the binding raises OverflowError
      before the statement runs. *)

From Stdlib Require Import ZArith List String Ascii Bool Lia.
From Stdlib Require Import Permutation Sorted.
Import ListNotations.
Open Scope string_scope.
Open Scope list_scope.
Open Scope Z_scope.

(** ** Values and rows *)

Definition timestamp := Z.

(** [column = ?] on a nullable column: a NULL never compares equal. *)
Definition sql_eq_text (column : option string) (param : string) : bool :=
  match column with
  | Some v => String.eqb v param
  | None => false
  end.

(** [COALESCE(x, d)] for a nullable integer. *)
Definition COALESCE (x : option Z) (d : Z) : Z :=
  match x with
  | Some v => v
  | None => d
  end.

(** [DATE('now')]: the day of the clock reading. *)
Definition DATE (now : timestamp) : Z := now / 86400.

(** Table [detailed_progress] (source lines 17-30).  The only key is the
    AUTOINCREMENT [id]; there is no UNIQUE constraint on
    [(user_id, skill_name)]. *)
Record detailed_progress_row := {
  dp_id : Z;
  dp_user_id : Z;
  dp_skill_name : string;
  dp_course_name : option string;
  dp_progress_percentage : Z;
  dp_time_spent_minutes : Z;
  dp_last_activity : timestamp;
  dp_completion_date : option timestamp;
  dp_notes : option string
}.

(** Table [learning_sessions] (source lines 33-44). *)
Record learning_sessions_row := {
  ls_id : Z;
  ls_user_id : Z;
  ls_skill_name : string;
  ls_session_date : Z;
  ls_minutes_studied : Z;
  ls_notes : string;
  ls_created_at : timestamp
}.

(** Table [achievements] (source lines 47-57). *)
Record achievements_row := {
  ac_id : Z;
  ac_user_id : Z;
  ac_achievement_type : string;
  ac_achievement_name : string;
  ac_description : string;
  ac_earned_date : timestamp
}.

(** Table [learning_plans].  Its CREATE TABLE statement is not part of the
    source at hand; the row keeps the three columns that the statements of the
    module name: [user_id], [skill_name] and [status]. *)
Record learning_plans_row := {
  lp_user_id : Z;
  lp_skill_name : string;
  lp_status : string
}.

(** The contents of the database file [career_coach.db]. *)
Record database := {
  detailed_progress : list detailed_progress_row;
  learning_sessions : list learning_sessions_row;
  achievements : list achievements_row;
  learning_plans : list learning_plans_row
}.

(** The file together with its write lock: [write_lock] is [true] while a
    live connection has an uncommitted writing transaction. *)
Record store := {
  file : database;
  write_lock : bool
}.

Definition empty_database : database :=
  {| detailed_progress := []; learning_sessions := [];
     achievements := []; learning_plans := [] |}.

Definition empty_store : store :=
  {| file := empty_database; write_lock := false |}.

(** ** Exceptions and outcomes *)

Inductive exn :=
| OperationalError (msg : string)
| OverflowError (msg : string).

(** The integers that SQLite can hold and that can be bound to a statement. *)
Definition int64 (z : Z) : bool :=
  (-9223372036854775808 <=? z) && (z <=? 9223372036854775807).

(** What a call leaves behind: it returns, or an exception leaves it; either
    way [committed] is the store that later calls find. *)
Inductive outcome :=
| Return (committed : store)
| Raise (e : exn) (committed : store).

Definition store_of (o : outcome) : store :=
  match o with
  | Return s => s
  | Raise _ s => s
  end.

Definition raised (o : outcome) : bool :=
  match o with
  | Return _ => false
  | Raise _ _ => true
  end.

(** ** Connections *)

Module Sql.

(** AUTOINCREMENT: one more than the largest rowid.  Rows are never
    deleted, so the largest rowid ever used is the largest present. *)
Definition next_id (ids : list Z) : Z :=
  1 + fold_right Z.max 0 ids.

(** The first writing statement of a connection takes the write lock. *)
Definition begin_write (s : store) : option store :=
  if write_lock s then None
  else Some {| file := file s; write_lock := true |}.

(** [conn.commit()]: the connection's view becomes the file and the lock
    is released. *)
Definition commit (view : database) : store :=
  {| file := view; write_lock := false |}.

(** A connection that is closed or collected without a commit: its
    transaction is rolled back and the lock released. *)
Definition rollback (s : store) : store :=
  {| file := file s; write_lock := false |}.

Definition locked : exn := OperationalError "database is locked".

(** What the binding of an integer outside 64 bits raises. *)
Definition too_large : exn :=
  OverflowError "Python int too large to convert to SQLite INTEGER".

(** [INSERT OR REPLACE INTO detailed_progress]: rows that conflict with the
    new row on the primary key [id] are deleted, then the row is added. *)
Definition insert_or_replace (row : detailed_progress_row)
    (table : list detailed_progress_row) : list detailed_progress_row :=
  filter (fun r => negb (dp_id r =? dp_id row)) table ++ [row].

(** [ORDER BY key DESC]: a stable insertion sort, so rows with equal keys
    stay in scan order (SQL leaves their order open). *)
Section OrderBy.
Context {A : Type} (key : A -> Z).

Fixpoint insert_desc (x : A) (l : list A) : list A :=
  match l with
  | [] => [x]
  | y :: l' => if key x <? key y then y :: insert_desc x l' else x :: l
  end.

Definition order_by_desc (l : list A) : list A :=
  fold_right insert_desc [] l.
End OrderBy.

End Sql.

Definition set_detailed_progress (t : list detailed_progress_row) (d : database) : database :=
  {| detailed_progress := t; learning_sessions := learning_sessions d;
     achievements := achievements d; learning_plans := learning_plans d |}.

Definition set_learning_sessions (t : list learning_sessions_row) (d : database) : database :=
  {| detailed_progress := detailed_progress d; learning_sessions := t;
     achievements := achievements d; learning_plans := learning_plans d |}.

Definition set_achievements (t : list achievements_row) (d : database) : database :=
  {| detailed_progress := detailed_progress d; learning_sessions := learning_sessions d;
     achievements := t; learning_plans := learning_plans d |}.

Definition set_learning_plans (t : list learning_plans_row) (d : database) : database :=
  {| detailed_progress := detailed_progress d; learning_sessions := learning_sessions d;
     achievements := achievements d; learning_plans := t |}.

(** ** The operations *)

(** [WHERE user_id = ? AND skill_name = ?] on [detailed_progress]. *)
Definition dp_for (user_id : Z) (skill_name : string) (r : detailed_progress_row) : bool :=
  (dp_user_id r =? user_id) && String.eqb (dp_skill_name r) skill_name.

(** The scalar subquery of source lines 77-78: the first row of the scan that
    matches, NULL when none does. *)
Definition select_time_spent (user_id : Z) (skill_name : string)
    (table : list detailed_progress_row) : option Z :=
  match filter (dp_for user_id skill_name) table with
  | [] => None
  | r :: _ => Some (dp_time_spent_minutes r)
  end.

(** The row of the INSERT OR REPLACE of source lines 73-80; the columns it
    does not name take their defaults (0 for [progress_percentage], NULL for
    the others).  The sum is the one of SQLite as long as it fits 64 bits;
    a sum that does not is computed by SQLite in floating point and stored
    as a REAL, which the rows of this file do not hold: what is stated
    below about the minutes stored is stated for sums that fit. *)
Definition session_progress_row (now : timestamp) (user_id : Z) (skill_name : string)
    (minutes_studied : Z) (table : list detailed_progress_row) : detailed_progress_row :=
  {| dp_id := Sql.next_id (map dp_id table);
     dp_user_id := user_id;
     dp_skill_name := skill_name;
     dp_course_name := None;
     dp_progress_percentage := 0;
     dp_time_spent_minutes :=
       COALESCE (select_time_spent user_id skill_name table) 0 + minutes_studied;
     dp_last_activity := now;
     dp_completion_date := None;
     dp_notes := None |}.

(** The row of the INSERT of source lines 67-70. *)
Definition session_row (now : timestamp) (user_id : Z) (skill_name : string)
    (minutes_studied : Z) (notes : string) (table : list learning_sessions_row)
    : learning_sessions_row :=
  {| ls_id := Sql.next_id (map ls_id table);
     ls_user_id := user_id;
     ls_skill_name := skill_name;
     ls_session_date := DATE now;
     ls_minutes_studied := minutes_studied;
     ls_notes := notes;
     ls_created_at := now |}.

(** The row of the INSERT OR REPLACE of source lines 91-95; the columns it
    does not name take their defaults (0 for [time_spent_minutes], NULL for
    [completion_date]). *)
Definition course_progress_row (now : timestamp) (user_id : Z)
    (skill_name course_name : string) (progress_percentage : Z) (notes : string)
    (table : list detailed_progress_row) : detailed_progress_row :=
  {| dp_id := Sql.next_id (map dp_id table);
     dp_user_id := user_id;
     dp_skill_name := skill_name;
     dp_course_name := Some course_name;
     dp_progress_percentage := progress_percentage;
     dp_time_spent_minutes := 0;
     dp_last_activity := now;
     dp_completion_date := None;
     dp_notes := Some notes |}.

(** [log_learning_session] (source lines 62-83).  The parameters of the
    first INSERT are bound before the statement runs: minutes outside 64
    bits raise OverflowError before anything is written or locked. *)
Definition log_learning_session (now : timestamp) (user_id : Z) (skill_name : string)
    (minutes_studied : Z) (notes : string) (s : store) : outcome :=
  if negb (int64 minutes_studied) then Raise Sql.too_large s else
  match Sql.begin_write s with
  | None => Raise Sql.locked s
  | Some _ =>
    let conn := file s in
    let conn :=
      set_learning_sessions
        (learning_sessions conn ++
           [session_row now user_id skill_name minutes_studied notes
              (learning_sessions conn)]) conn in
    let conn :=
      set_detailed_progress
        (Sql.insert_or_replace
           (session_progress_row now user_id skill_name minutes_studied
              (detailed_progress conn))
           (detailed_progress conn)) conn in
    Return (Sql.commit conn)
  end.

(** [f"Completed {skill_name}"] and the description of source line 141. *)
Definition achievement_name (skill_name : string) : string :=
  ("Completed " ++ skill_name)%string.

Definition achievement_description (skill_name : string) : string :=
  ("Successfully completed " ++ skill_name ++ " course")%string.

(** The [WHERE] clause of the [SELECT COUNT( * )] of source lines 131-134. *)
Definition is_completion_of (user_id : Z) (skill_name : string) (a : achievements_row) : bool :=
  (ac_user_id a =? user_id)
  && String.eqb (ac_achievement_type a) "course_completion"
  && String.eqb (ac_achievement_name a) (achievement_name skill_name).

(** The row of the INSERT of source lines 138-141; [earned_date] takes its
    default, the clock reading. *)
Definition achievement_row (now : timestamp) (user_id : Z) (skill_name : string)
    (table : list achievements_row) : achievements_row :=
  {| ac_id := Sql.next_id (map ac_id table);
     ac_user_id := user_id;
     ac_achievement_type := "course_completion";
     ac_achievement_name := achievement_name skill_name;
     ac_description := achievement_description skill_name;
     ac_earned_date := now |}.

(** [check_and_award_achievements] (source lines 125-145).  It opens its own
    connection: the count is read from the file, and the INSERT needs the
    write lock. *)
Definition check_and_award_achievements (now : timestamp) (user_id : Z)
    (skill_name : string) (s : store) : outcome :=
  if Z.of_nat (List.length (filter (is_completion_of user_id skill_name) (achievements (file s)))) =? 0
  then
    match Sql.begin_write s with
    | None => Raise Sql.locked s
    | Some _ =>
      let conn := file s in
      let conn :=
        set_achievements
          (achievements conn ++
             [achievement_row now user_id skill_name (achievements conn)]) conn in
      Return (Sql.commit conn)
    end
  else Return s.

(** The status chosen by the [if]/[elif]/[else] of source lines 98-113. *)
Definition status_of (progress_percentage : Z) : string :=
  if progress_percentage >=? 100 then "completed"
  else if progress_percentage >? 0 then "in_progress"
  else "not_started".

(** [WHERE user_id = ? AND skill_name = ? AND course_name = ?]. *)
Definition dp_for_course (user_id : Z) (skill_name course_name : string)
    (r : detailed_progress_row) : bool :=
  (dp_user_id r =? user_id) && String.eqb (dp_skill_name r) skill_name
  && sql_eq_text (dp_course_name r) course_name.

Definition set_completion_date (now : timestamp) (r : detailed_progress_row)
    : detailed_progress_row :=
  {| dp_id := dp_id r; dp_user_id := dp_user_id r; dp_skill_name := dp_skill_name r;
     dp_course_name := dp_course_name r;
     dp_progress_percentage := dp_progress_percentage r;
     dp_time_spent_minutes := dp_time_spent_minutes r;
     dp_last_activity := dp_last_activity r;
     dp_completion_date := Some now;
     dp_notes := dp_notes r |}.

(** [UPDATE detailed_progress SET completion_date = CURRENT_TIMESTAMP WHERE ...]. *)
Definition stamp_completion (now : timestamp) (user_id : Z) (skill_name course_name : string)
    (r : detailed_progress_row) : detailed_progress_row :=
  if dp_for_course user_id skill_name course_name r then set_completion_date now r else r.

(** [UPDATE learning_plans SET status = ? WHERE user_id = ? AND skill_name = ?]. *)
Definition update_plan_status (status : string) (user_id : Z) (skill_name : string)
    (p : learning_plans_row) : learning_plans_row :=
  if (lp_user_id p =? user_id) && String.eqb (lp_skill_name p) skill_name
  then {| lp_user_id := lp_user_id p; lp_skill_name := lp_skill_name p; lp_status := status |}
  else p.

(** [update_course_progress] (source lines 85-123).  The INSERT OR REPLACE
    starts the transaction of [conn]; the call of
    [check_and_award_achievements] at line 108 runs while that transaction is
    open, on the store with the lock taken and the file as last committed.
    An exception of that call leaves [update_course_progress] before
    [conn.commit()] and without [conn.close()]: nothing is committed, and
    the lock of [conn] stays held (see [Collect] below).  A percentage
    outside 64 bits raises OverflowError when the INSERT OR REPLACE is
    bound, before anything is written or locked.
    The branches on the percentage appear twice here: in [status_of] for the
    value of [status], and in the test [>= 100] for the statements that only
    the first branch runs. *)
Definition update_course_progress (now : timestamp) (user_id : Z)
    (skill_name course_name : string) (progress_percentage : Z) (notes : string)
    (s : store) : outcome :=
  if negb (int64 progress_percentage) then Raise Sql.too_large s else
  match Sql.begin_write s with
  | None => Raise Sql.locked s
  | Some held =>
    let conn := file s in
    let conn :=
      set_detailed_progress
        (Sql.insert_or_replace
           (course_progress_row now user_id skill_name course_name progress_percentage
              notes (detailed_progress conn))
           (detailed_progress conn)) conn in
    let status := status_of progress_percentage in
    let completion : database + exn * store :=
      if progress_percentage >=? 100 then
        let conn :=
          set_detailed_progress
            (map (stamp_completion now user_id skill_name course_name)
                 (detailed_progress conn)) conn in
        match check_and_award_achievements now user_id skill_name held with
        | Raise e s1 => inr (e, s1)
        | Return _ => inl conn
        end
      else inl conn in
    match completion with
    | inr (e, s1) => Raise e s1
    | inl conn =>
      let conn :=
        set_learning_plans
          (map (update_plan_status status user_id skill_name) (learning_plans conn)) conn in
      Return (Sql.commit conn)
    end
  end.

(** [get_detailed_progress] (source lines 147-162). *)
Definition get_detailed_progress (user_id : Z) (s : store)
    : list (string * option string * Z * Z * timestamp * option timestamp * option string) :=
  map (fun r => (dp_skill_name r, dp_course_name r, dp_progress_percentage r,
                 dp_time_spent_minutes r, dp_last_activity r, dp_completion_date r,
                 dp_notes r))
      (Sql.order_by_desc dp_last_activity
         (filter (fun r => dp_user_id r =? user_id) (detailed_progress (file s)))).

(** [get_achievements] (source lines 180-194). *)
Definition get_achievements (user_id : Z) (s : store)
    : list (string * string * string * timestamp) :=
  map (fun a => (ac_achievement_type a, ac_achievement_name a, ac_description a,
                 ac_earned_date a))
      (Sql.order_by_desc ac_earned_date
         (filter (fun a => ac_user_id a =? user_id) (achievements (file s)))).

(** ** The forms of the page *)

Inductive feedback :=
| st_success
| st_error (msg : string).

(** The handler of the form [log_session_form] (source lines 322-329). *)
Definition log_session_form (now : timestamp) (user_id : Z) (skill : string)
    (hours minutes : Z) (notes : string) (s : store) : option feedback * outcome :=
  let total_minutes := hours * 60 + minutes in
  if total_minutes >? 0 then
    match log_learning_session now user_id skill total_minutes notes s with
    | Return s' => (Some st_success, Return s')
    | Raise e s' => (None, Raise e s')
    end
  else (Some (st_error "Please enter a valid study time."), Return s).

(** The handler of the form [update_progress_form] (source lines 343-346);
    [progress] comes from [st.slider("Progress Percentage", 0, 100, 0)]. *)
Definition update_progress_form (now : timestamp) (user_id : Z) (skill course_name : string)
    (progress : Z) (notes : string) (s : store) : option feedback * outcome :=
  match update_course_progress now user_id skill course_name progress notes s with
  | Return s' => (Some st_success, Return s')
  | Raise e s' => (None, Raise e s')
  end.

(** ** Sequences of calls *)

Inductive call :=
| LogSession (now : timestamp) (user_id : Z) (skill_name : string)
    (minutes_studied : Z) (notes : string)
| UpdateProgress (now : timestamp) (user_id : Z) (skill_name course_name : string)
    (progress_percentage : Z) (notes : string)
| Award (now : timestamp) (user_id : Z) (skill_name : string)
| Collect.

(** [Collect] is no call of the module: it stands for the moment at which
    the connection that holds the lock, left open by a call that raised, is
    closed or collected by the interpreter. *)
Definition exec (c : call) (s : store) : outcome :=
  match c with
  | LogSession now u k m n => log_learning_session now u k m n s
  | UpdateProgress now u k c p n => update_course_progress now u k c p n s
  | Award now u k => check_and_award_achievements now u k s
  | Collect => Return (Sql.rollback s)
  end.

(** The calls run one after the other; a call that raises leaves the store
    of its outcome (see [outcome]) and the next call goes on from there. *)
Definition run (cs : list call) (s : store) : store :=
  fold_left (fun s c => store_of (exec c s)) cs s.

(** ** Observations and inputs of the statements *)

(** The [time_spent_minutes] that [get_detailed_progress] reports for a skill,
    most recently active record first. *)
Definition reported_minutes (user_id : Z) (skill_name : string) (s : store) : list Z :=
  map (fun '(_, _, _, time_spent, _, _, _) => time_spent)
      (filter (fun '(skill, _, _, _, _, _, _) => String.eqb skill skill_name)
              (get_detailed_progress user_id s)).

(** Three sessions of 90, 30 and 10 minutes for user 1 and skill Python,
    logged at times 1, 2 and 3. *)
Definition three_sessions : list call :=
  [LogSession 1 1 "Python" 90 "";
   LogSession 2 1 "Python" 30 "";
   LogSession 3 1 "Python" 10 ""].

(** The pairs (rowid, completion date) of the table [detailed_progress]. *)
Definition completion_dates (s : store) : list (Z * option timestamp) :=
  map (fun r => (dp_id r, dp_completion_date r)) (detailed_progress (file s)).

(** User 1 holds the achievement of Python (a direct call of the granter at
    time 0) and then sets Python/Intro to 100 at time 10. *)
Definition completed_once : list call :=
  [Award 0 1 "Python"; UpdateProgress 10 1 "Python" "Intro" 100 ""].

(** The same, followed by a second update to 100 at time 20. *)
Definition completed_twice : list call :=
  completed_once ++ [UpdateProgress 20 1 "Python" "Intro" 100 ""].

(** A percentage in the range of the slider of the page. *)
Definition percentage_in_range (c : call) : Prop :=
  match c with
  | UpdateProgress _ _ _ _ progress_percentage _ => 0 <= progress_percentage <= 100
  | _ => True
  end.

Definition stored_in_range (r : detailed_progress_row) : Prop :=
  0 <= dp_progress_percentage r <= 100.

(** A database in which the learning plan of user 1 lists Python, not yet
    started, and nothing else is stored. *)
Definition planned_store : store :=
  {| file :=
       set_learning_plans
         [{| lp_user_id := 1; lp_skill_name := "Python"; lp_status := "not_started" |}]
         empty_database;
     write_lock := false |}.

(** A database in which the learning plan of user 1 lists Python (not
    started) and SQL (not started), that of user 2 lists Python (completed),
    and user 1 holds the completion achievement of Python already. *)
Definition planned_plus : store :=
  {| file :=
       {| detailed_progress := [];
          learning_sessions := [];
          achievements := [achievement_row 0 1 "Python" []];
          learning_plans :=
            [{| lp_user_id := 1; lp_skill_name := "Python"; lp_status := "not_started" |};
             {| lp_user_id := 1; lp_skill_name := "SQL"; lp_status := "not_started" |};
             {| lp_user_id := 2; lp_skill_name := "Python"; lp_status := "completed" |}] |};
     write_lock := false |}.

(** The number of achievements that the granter counts for (user, skill). *)
Definition completions (user_id : Z) (skill_name : string) (s : store) : nat :=
  List.length (filter (is_completion_of user_id skill_name) (achievements (file s))).

(** ** The rest of the page *)

(** The clock of a running program: a reading from 1970 to the end of the
    year 9999, the last that SQLite can write as a date; and the days of
    such readings. *)
Definition valid_clock (now : timestamp) : Prop := 0 <= now < 253402300800.

Definition valid_day (day : Z) : Prop := 0 <= day < 2932897.

(** [DATE('now', '-N days')] is NULL when it would lie before the first day
    that SQLite knows, noon of which is 210866760000 seconds before 1970. *)
Definition before_first_date (now : timestamp) (days_back : Z) : bool :=
  210866760000 + now <? days_back * 86400.

(** [get_learning_sessions] (source lines 164-178).  [session_date] holds the
    day of the session, so [session_date >= DATE('now', '-N days')] compares
    days.  For a negative [days_back] the modifier reads ['--N days'], which
    SQLite does not accept, and for a [days_back] that reaches before the
    first date of SQLite the date does not exist: in both cases [DATE]
    yields NULL and no row passes the comparison. *)
Definition get_learning_sessions (now : timestamp) (user_id : Z) (days_back : Z) (s : store)
    : list (string * Z * Z * string) :=
  if (days_back <? 0) || before_first_date now days_back then []
  else
    map (fun r => (ls_skill_name r, ls_session_date r, ls_minutes_studied r, ls_notes r))
        (Sql.order_by_desc ls_session_date
           (filter (fun r => (ls_user_id r =? user_id)
                             && (DATE now - days_back <=? ls_session_date r))
                   (learning_sessions (file s)))).

(** The default of [days_back]. *)
Definition default_days_back : Z := 30.

(** The time of a progress card (source lines 231-232):
    [time_spent // 60 if time_spent else 0] and [time_spent % 60 if time_spent else 0]. *)
Definition card_time (time_spent : Z) : Z * Z :=
  (if time_spent =? 0 then 0 else time_spent / 60,
   if time_spent =? 0 then 0 else time_spent mod 60).

(** The three boxes of a progress card (source lines 236-241):
    [st.success] Completed, [st.info] In Progress, [st.warning] Not Started. *)
Inductive badge :=
| Completed
| In_Progress
| Not_Started.

Definition card_badge (percentage : Z) (completion_date : option timestamp) : badge :=
  match completion_date with
  | Some _ => Completed
  | None => if percentage >? 0 then In_Progress else Not_Started
  end.

(** [if course:] and [if notes:] (source lines 225 and 243): a text is shown
    when it is there and not empty. *)
Definition shown (text : option string) : option string :=
  match text with
  | Some t => if String.eqb t "" then None else Some t
  | None => None
  end.

(** One card of the overview tab: skill, course if shown, percentage, hours
    and minutes, the box, and the notes if shown. *)
Definition card : Type := string * option string * Z * (Z * Z) * badge * option string.

(** What the overview tab has shown: the cards, and, when
    [st.progress(percentage / 100 if percentage else 0)] (source line 227)
    raised for a record, the skill and the course of that record, which
    were written before; the records after it are not reached.  The bar of
    [st.progress] takes a value from 0.0 to 1.0 only. *)
Record overview := {
  cards : list card;
  stopped_at : option (string * option string)
}.

(** The loop of the overview tab (source lines 217-246) over the records of
    [get_detailed_progress]. *)
Fixpoint render_cards
    (records : list (string * option string * Z * Z * timestamp * option timestamp
                     * option string)) : overview :=
  match records with
  | [] => {| cards := []; stopped_at := None |}
  | (skill, course, percentage, time_spent, _, completion_date, notes) :: rest =>
    if (0 <=? percentage) && (percentage <=? 100) then
      let shown_rest := render_cards rest in
      {| cards :=
           (skill, shown course, percentage, card_time time_spent,
            card_badge percentage completion_date, shown notes)
           :: cards shown_rest;
         stopped_at := stopped_at shown_rest |}
    else {| cards := []; stopped_at := Some (skill, shown course) |}
  end.

Definition overview_cards (user_id : Z) (s : store) : overview :=
  render_cards (get_detailed_progress user_id s).

(** The card of a stored record, as the loop writes it when [st.progress]
    takes the percentage of the record. *)
Definition card_of (r : detailed_progress_row) : card :=
  (dp_skill_name r, shown (dp_course_name r), dp_progress_percentage r,
   card_time (dp_time_spent_minutes r),
   card_badge (dp_progress_percentage r) (dp_completion_date r),
   shown (dp_notes r)).

(** Every record stored for the user has a percentage that [st.progress]
    takes. *)
Definition bars_in_range (user_id : Z) (s : store) : Prop :=
  Forall (fun r => dp_user_id r = user_id -> 0 <= dp_progress_percentage r <= 100)
         (detailed_progress (file s)).

(** The recent sessions of the time tab (source lines 267-276): the first
    ten sessions with hours, minutes and [notes if notes else 'No notes']. *)
Definition recent_sessions (sessions : list (string * Z * Z * string))
    : list (string * Z * Z * Z * string) :=
  map (fun '(skill, date, minutes, notes) =>
         (skill, date, minutes / 60, minutes mod 60,
          if String.eqb notes "" then "No notes" else notes))
      (firstn 10 sessions).

(** The status that a box of a card stands for. *)
Definition badge_status (b : badge) : string :=
  match b with
  | Completed => "completed"
  | In_Progress => "in_progress"
  | Not_Started => "not_started"
  end.

(** A record of [detailed_progress] as [get_detailed_progress] returns it. *)
Definition progress_tuple (r : detailed_progress_row)
    : string * option string * Z * Z * timestamp * option timestamp * option string :=
  (dp_skill_name r, dp_course_name r, dp_progress_percentage r,
   dp_time_spent_minutes r, dp_last_activity r, dp_completion_date r, dp_notes r).

(** The [last_activity] of a record as [get_detailed_progress] returns it. *)
Definition last_activity_of
    (t : string * option string * Z * Z * timestamp * option timestamp * option string)
    : timestamp :=
  let '(_, _, _, _, last_activity, _, _) := t in last_activity.

(** A row of [learning_sessions] as [get_learning_sessions] returns it, and
    the day of such a session. *)
Definition session_tuple (r : learning_sessions_row) : string * Z * Z * string :=
  (ls_skill_name r, ls_session_date r, ls_minutes_studied r, ls_notes r).

Definition session_date_of (t : string * Z * Z * string) : Z :=
  let '(_, session_date, _, _) := t in session_date.

(** A row of [achievements] as [get_achievements] returns it. *)
Definition achievement_tuple (a : achievements_row) : string * string * string * timestamp :=
  (ac_achievement_type a, ac_achievement_name a, ac_description a, ac_earned_date a).

(** A record of [detailed_progress] without its completion date. *)
Definition without_completion_date (r : detailed_progress_row) : detailed_progress_row :=
  {| dp_id := dp_id r; dp_user_id := dp_user_id r; dp_skill_name := dp_skill_name r;
     dp_course_name := dp_course_name r;
     dp_progress_percentage := dp_progress_percentage r;
     dp_time_spent_minutes := dp_time_spent_minutes r;
     dp_last_activity := dp_last_activity r;
     dp_completion_date := None;
     dp_notes := dp_notes r |}.

(** No call of the sequence raises. *)
Fixpoint all_return (cs : list call) (s : store) : bool :=
  match cs with
  | [] => true
  | c :: rest => negb (raised (exec c s)) && all_return rest (store_of (exec c s))
  end.

(** The columns of a session row that [log_learning_session] is given. *)
Definition session_entry (r : learning_sessions_row) : Z * string * Z * Z * string :=
  (ls_user_id r, ls_skill_name r, ls_session_date r, ls_minutes_studied r, ls_notes r).

(** The sessions that the calls of a sequence log, in the order of the calls. *)
Definition sessions_logged (cs : list call) : list (Z * string * Z * Z * string) :=
  flat_map (fun c =>
              match c with
              | LogSession now user_id skill_name minutes_studied notes =>
                  [(user_id, skill_name, DATE now, minutes_studied, notes)]
              | _ => []
              end) cs.

(** The sessions that a sequence of calls run from [s] stores: those of the
    [log_learning_session] calls that return, in the order of the calls. *)
Fixpoint sessions_stored (cs : list call) (s : store)
    : list (Z * string * Z * Z * string) :=
  match cs with
  | [] => []
  | c :: rest =>
    match c with
    | LogSession now user_id skill_name minutes_studied notes =>
        if raised (exec c s) then []
        else [(user_id, skill_name, DATE now, minutes_studied, notes)]
    | _ => []
    end ++ sessions_stored rest (store_of (exec c s))
  end.

(** Sessions of one (user, skill), each with its clock reading, minutes and notes. *)
Definition sessions_of (user_id : Z) (skill_name : string)
    (l : list (timestamp * Z * string)) : list call :=
  map (fun '(now, minutes, notes) => LogSession now user_id skill_name minutes notes) l.

(** The three tables have no rowid twice. *)
Definition rowids_unique (s : store) : Prop :=
  NoDup (map dp_id (detailed_progress (file s)))
  /\ NoDup (map ls_id (learning_sessions (file s)))
  /\ NoDup (map ac_id (achievements (file s))).

(** ** simple_admin_bulk.py *)

Module Admin.

(** Table [admin_users] (source lines 20-26): no key but the AUTOINCREMENT
    [id], no UNIQUE constraint on [user_id]. *)
Record admin_users_row := {
  au_id : Z;
  au_user_id : Z;
  au_created_at : timestamp
}.

(** Table [bulk_results] (source lines 29-39). *)
Record bulk_results_row := {
  br_id : Z;
  br_admin_id : Z;
  br_job_role : string;
  br_filename : string;
  br_score : Z;
  br_selected : bool;
  br_analysis_date : timestamp
}.

(** The same file [career_coach.db], with the two tables of this module:
    its write lock is the one of [base]. *)
Record admin_store := {
  base : store;
  admin_users : list admin_users_row;
  bulk_results : list bulk_results_row
}.

Definition empty_admin_store : admin_store :=
  {| base := empty_store; admin_users := []; bulk_results := [] |}.

Inductive admin_outcome :=
| Done (committed : admin_store)
| Failed (e : exn) (committed : admin_store).

Definition admin_store_of (o : admin_outcome) : admin_store :=
  match o with
  | Done s => s
  | Failed _ s => s
  end.

(** [INSERT OR IGNORE INTO admin_users]: a row that conflicts with a row of
    the table on the primary key [id] is not inserted. *)
Definition insert_or_ignore (row : admin_users_row) (table : list admin_users_row)
    : list admin_users_row :=
  if existsb (fun r => au_id r =? au_id row) table then table else table ++ [row].

(** [make_admin] (source lines 44-50). *)
Definition make_admin (now : timestamp) (user_id : Z) (s : admin_store) : admin_outcome :=
  match Sql.begin_write (base s) with
  | None => Failed Sql.locked s
  | Some _ =>
    Done {| base := Sql.commit (file (base s));
            admin_users :=
              insert_or_ignore
                {| au_id := Sql.next_id (map au_id (admin_users s));
                   au_user_id := user_id;
                   au_created_at := now |}
                (admin_users s);
            bulk_results := bulk_results s |}
  end.

(** [is_admin] (source lines 52-59). *)
Definition is_admin (user_id : Z) (s : admin_store) : bool :=
  Z.of_nat (List.length (filter (fun r => au_user_id r =? user_id) (admin_users s))) >? 0.

(** The rows of [admin_users] of a user. *)
Definition admin_rows (user_id : Z) (s : admin_store) : nat :=
  List.length (filter (fun r => au_user_id r =? user_id) (admin_users s)).

(** What [analysis.get(...)] reads of the dictionary that the analyzer
    returns: each of the four keys may be missing. *)
Record analysis := {
  overall_score : option Z;
  selected : option bool;
  strengths : option (list string);
  missing_skills : option (list string)
}.

(** [analyzer.analyze_resume(uploaded_file)]: a dictionary, or an exception
    with its text. *)
Inductive analysis_reply :=
| Analysis (a : analysis)
| Analysis_error (text : string).

(** The dictionary [result] of source lines 113-119. *)
Record result := {
  filename : string;
  score : Z;
  is_selected : bool;
  result_strengths : list string;
  result_missing_skills : list string
}.

Definition result_of (name : string) (a : analysis) : result :=
  {| filename := name;
     score := match overall_score a with Some v => v | None => 0 end;
     is_selected := match selected a with Some v => v | None => false end;
     result_strengths := match strengths a with Some v => v | None => [] end;
     result_missing_skills := match missing_skills a with Some v => v | None => [] end |}.

(** The INSERT of source lines 123-130, on a connection of its own. *)
Definition save_result (now : timestamp) (user_id : Z) (job_role : string) (r : result)
    (s : admin_store) : admin_outcome :=
  match Sql.begin_write (base s) with
  | None => Failed Sql.locked s
  | Some _ =>
    Done {| base := Sql.commit (file (base s));
            admin_users := admin_users s;
            bulk_results :=
              bulk_results s ++
              [{| br_id := Sql.next_id (map br_id (bulk_results s));
                  br_admin_id := user_id;
                  br_job_role := job_role;
                  br_filename := filename r;
                  br_score := score r;
                  br_selected := is_selected r;
                  br_analysis_date := now |}] |}
  end.

(** What the page shows after the loop (source lines 136-166): the two
    counts and the results ordered by [sorted(results, key=score,
    reverse=True)], which keeps results of equal score in their order.  The
    match rate, a float, is left out. *)
Record report := {
  results : list result;
  errors : list string;
  total_resumes : nat;
  matched_count : nat;
  detailed : list result
}.

Section Page.

(** The uploaded files with their names, and the analyzer of the module
    [agents], which is not part of the source at hand, built from the API
    key. *)
Variable upload : Type.
Variable upload_name : upload -> string.
Variable analyze_resume : string -> upload -> analysis_reply.

(** The loop of source lines 106-133.  Every file comes with the clock
    reading at which its row is written.  An exception of the analyzer or of
    the INSERT is caught and shown as an error; the result of a file whose
    INSERT fails has been appended to [results] before. *)
Fixpoint analyze_files (api_key : string) (user_id : Z) (job_role : string)
    (files : list (timestamp * upload)) (results : list result) (errors : list string)
    (s : admin_store) : list result * list string * admin_store :=
  match files with
  | [] => (results, errors, s)
  | (now, f) :: rest =>
    match analyze_resume api_key f with
    | Analysis_error text =>
      analyze_files api_key user_id job_role rest results
        (errors ++ [("Error analyzing " ++ upload_name f ++ ": " ++ text)%string]) s
    | Analysis a =>
      let r := result_of (upload_name f) a in
      match save_result now user_id job_role r s with
      | Done s' =>
        analyze_files api_key user_id job_role rest (results ++ [r]) errors s'
      | Failed (OperationalError text) s' | Failed (OverflowError text) s' =>
        analyze_files api_key user_id job_role rest (results ++ [r])
          (errors ++ [("Error analyzing " ++ upload_name f ++ ": " ++ text)%string]) s'
      end
    end
  end.

Inductive page :=
| Access_required (s : admin_store)
| Access_granted (o : admin_outcome)
| Access_confirmed (s : admin_store)
| Api_key_missing (s : admin_store)
| Analysis_completed (r : report) (s : admin_store).

(** [simple_admin_page] (source lines 61-166), with what the user does on
    the page: the two buttons, the job role chosen and the files uploaded. *)
Definition simple_admin_page (api_key : string) (user_id : Z) (now : timestamp)
    (grant_clicked : bool) (job_role : string) (uploaded_files : list (timestamp * upload))
    (analyze_clicked : bool) (s : admin_store) : page :=
  if negb (is_admin user_id s) then
    if grant_clicked then Access_granted (make_admin now user_id s)
    else Access_required s
  else
    if negb (Nat.eqb (List.length uploaded_files) 0) && analyze_clicked then
      if String.eqb api_key "" then Api_key_missing s
      else
        let '(results, errors, s') :=
          analyze_files api_key user_id job_role uploaded_files [] [] s in
        Analysis_completed
          {| results := results;
             errors := errors;
             total_resumes := List.length results;
             matched_count := List.length (filter is_selected results);
             detailed := Sql.order_by_desc score results |}
          s'
    else Access_confirmed s.

(** The store that a run of the page leaves. *)
Definition page_store (p : page) : admin_store :=
  match p with
  | Access_required s => s
  | Access_granted o => admin_store_of o
  | Access_confirmed s => s
  | Api_key_missing s => s
  | Analysis_completed _ s => s
  end.

End Page.

End Admin.



(** An analyzer to try the page on: files are given by their names, the file
    [broken.pdf] cannot be read, every other file scores by the length of
    its name and is selected from 10 on. *)
Definition sample_analyzer (api_key : string) (name : string) : Admin.analysis_reply :=
  if String.eqb name "broken.pdf" then Admin.Analysis_error "cannot read file"
  else
    Admin.Analysis
      {| Admin.overall_score := Some (Z.of_nat (String.length name));
         Admin.selected := Some (10 <=? Z.of_nat (String.length name));
         Admin.strengths := None;
         Admin.missing_skills := Some ["SQL"] |}.

Definition sample_uploads : list (timestamp * string) :=
  [(20, "ann.pdf"); (21, "broken.pdf"); (22, "roberta.docx")].

(** A database in which user 4 is an admin. *)
Definition sample_admin_store : Admin.admin_store :=
  Admin.admin_store_of (Admin.make_admin 10 4 Admin.empty_admin_store).

(** ** conversational_agent.py *)

Module Py.

(** The Python values that cross the functions modelled below: what JSON
    can hold, numbers being integers. *)
#[local] Unset Elimination Schemes.
Inductive value :=
| PyNone
| PyBool (b : bool)
| PyInt (z : Z)
| PyStr (s : string)
| PyList (l : list value)
| PyDict (d : list (string * value)).
#[local] Set Elimination Schemes.

(** The truth value of [if v:] and [not v]. *)
Definition truthy (v : value) : bool :=
  match v with
  | PyNone => false
  | PyBool b => b
  | PyInt z => negb (z =? 0)
  | PyStr s => negb (String.eqb s "")
  | PyList l => match l with [] => false | _ => true end
  | PyDict d => match d with [] => false | _ => true end
  end.

(** The binding of a key in a dictionary with string keys. *)
Fixpoint lookup (d : list (string * value)) (key : string) : option value :=
  match d with
  | [] => None
  | (k, v) :: d' => if String.eqb k key then Some v else lookup d' key
  end.

(** [d.get(key, default)]. *)
Definition get (d : list (string * value)) (key : string) (default : value) : value :=
  match lookup d key with
  | Some v => v
  | None => default
  end.

End Py.

Module Coach.

Import Py.

(** One course of [context["learning_plan"]] (source lines 331-337), from a
    row [plan] of the learning plan: [plan[0]], [plan[1]], [plan[2]],
    [plan[3]] and [plan[5]].  A row without a sixth column raises
    IndexError, here [None]. *)
Definition course_of (plan : list value) : option value :=
  match nth_error plan 0, nth_error plan 1, nth_error plan 2, nth_error plan 3,
        nth_error plan 5 with
  | Some skill, Some current_level, Some target_level, Some course, Some duration =>
      Some (PyDict [("skill", skill); ("current_level", current_level);
                    ("target_level", target_level); ("course", course);
                    ("duration", duration)])
  | _, _, _, _, _ => None
  end.

(** The list comprehension of source lines 330-339: it raises as soon as one
    row does. *)
Fixpoint courses_of (plans : list (list value)) : option (list value) :=
  match plans with
  | [] => Some []
  | plan :: rest =>
    match course_of plan with
    | None => None
    | Some c =>
      match courses_of rest with
      | None => None
      | Some cs => Some (c :: cs)
      end
    end
  end.

(** [format_context_for_agent] (source lines 317-344).  [analysis_result] is
    [None] or a dictionary, [learning_plan] is [None] (here the empty list,
    which the test [if learning_plan:] does not tell apart) or a list of
    rows, [user_profile] is any value.  The result is the dictionary
    [context] with its keys in the order of insertion, or [None] for the
    IndexError of a row that is too short. *)
Definition format_context_for_agent (analysis_result : option (list (string * value)))
    (learning_plan : list (list value)) (user_profile : value)
    : option (list (string * value)) :=
  let context := [] in
  let context :=
    match analysis_result with
    | Some ((_ :: _) as d) =>
        context ++
        [("resume_analysis",
          PyDict [("overall_score", get d "overall_score" PyNone);
                  ("strengths", get d "strengths" (PyList []));
                  ("missing_skills", get d "missing_skills" (PyList []));
                  ("selected", get d "selected" (PyBool false))])]
    | _ => context
    end in
  match
    match learning_plan with
    | [] => Some context
    | _ :: _ =>
      match courses_of (firstn 5 learning_plan) with
      | Some cs => Some (context ++ [("learning_plan", PyList cs)])
      | None => None
      end
    end
  with
  | None => None
  | Some context =>
    Some (if truthy user_profile then context ++ [("user_profile", user_profile)]
          else context)
  end.

(** What [self.llm.invoke(prompt)] gives: a response with its content, or an
    exception with its text. *)
Inductive llm_reply :=
| Content (text : string)
| Llm_error (text : string).

Definition nl : string := String (Ascii.ascii_of_nat 10) EmptyString.

Definition indent : string := "            ".

(** The two string literals of [summary_prompt] (source lines 268-277). *)
Definition summary_head : string :=
  (nl ++ indent ++ "Summarize this career coaching conversation:" ++ nl
   ++ indent ++ nl ++ indent)%string.

Definition summary_tail : string :=
  (nl ++ indent ++ nl
   ++ indent ++ "Provide a brief summary of:" ++ nl
   ++ indent ++ "1. Main topics discussed" ++ nl
   ++ indent ++ "2. Key advice given" ++ nl
   ++ indent ++ "3. User's goals/concerns" ++ nl
   ++ indent)%string.

(** [messages[-6:] if len(messages) > 6 else messages] (source line 266). *)
Definition recent_messages {A : Type} (messages : list A) : list A :=
  if (6 <? List.length messages)%nat then skipn (List.length messages - 6) messages
  else messages.

Section Summary.

Variable llm_invoke : string -> llm_reply.

(** [get_conversation_summary] (source lines 258-283) on the messages of the
    memory, each with its [type] and [content]. *)
Definition get_conversation_summary (messages : list (string * string)) : string :=
  match messages with
  | [] => "No conversation history yet."
  | _ :: _ =>
    let summary_prompt :=
      (summary_head
       ++ String.concat nl
            (map (fun '(type, content) => type ++ ": " ++ content)
                 (recent_messages messages))
       ++ summary_tail)%string in
    match llm_invoke summary_prompt with
    | Content text => text
    | Llm_error text => ("Unable to generate summary: " ++ text)%string
    end
  end.

End Summary.

End Coach.

(** ** app.py *)

Module App.

Import Py.

(** A computation that may raise; [Err] carries [str(e)], which is all the
    handlers use of an exception. *)
Inductive attempt (A : Type) :=
| Ok (a : A)
| Err (text : string).

Arguments Ok {A} a.
Arguments Err {A} text.

(** [type(v).__name__]. *)
Definition type_name (v : value) : string :=
  match v with
  | PyNone => "NoneType"
  | PyBool _ => "bool"
  | PyInt _ => "int"
  | PyStr _ => "str"
  | PyList _ => "list"
  | PyDict _ => "dict"
  end.

(** [data.get(key, default)] on whatever [request.get_json()] returned: only
    a dictionary has the method, any other value raises AttributeError. *)
Definition data_get (data : value) (key : string) (default : value) : attempt value :=
  match data with
  | PyDict d => Ok (get d key default)
  | _ => Err ("'" ++ type_name data ++ "' object has no attribute 'get'")%string
  end.

(** [d[key]] on a dictionary: KeyError, whose text is the key in quotes. *)
Definition subscript (d : list (string * value)) (key : string) : attempt value :=
  match lookup d key with
  | Some v => Ok v
  | None => Err ("'" ++ key ++ "'")%string
  end.

(** What [request.get_json()] gives: the value parsed, or an exception. *)
Inductive request_body :=
| Json (data : value)
| Bad_request (text : string).

(** What a method of [bedrock] gives: a dictionary, or an exception. *)
Inductive bedrock_reply :=
| Result (result : list (string * value))
| Bedrock_error (text : string).

(** A response: the dictionary given to [jsonify] and the status code. *)
Definition response : Type := list (string * value) * Z.

Definition error (text : value) (status : Z) : response :=
  ([("error", text)], status).

Section Endpoints.

(** The object [bedrock] of the module [bedrock_integration], which is not
    part of the source at hand: its dictionary [agents] and its methods. *)
Variable agents : list (string * value).
Variable invoke_agent : value -> value -> value -> bedrock_reply.
Variable analyze_resume_agent : value -> value -> bedrock_reply.
Variable get_career_guidance : value -> bedrock_reply.
Variable generate_learning_plan : value -> value -> bedrock_reply.

(** [bedrock.agents.get(agent_type, bedrock.agents['supervisor'])] (source
    line 40): the default is evaluated before the call, and a list or a
    dictionary cannot be a key. *)
Definition select_agent (agent_type : value) : attempt value :=
  match subscript agents "supervisor" with
  | Err text => Err text
  | Ok supervisor =>
    match agent_type with
    | PyStr name => Ok (get agents name supervisor)
    | PyList _ => Err "unhashable type: 'list'"
    | PyDict _ => Err "unhashable type: 'dict'"
    | _ => Ok supervisor
    end
  end.

(** The end of the four handlers: [if result['success']: ... else: ...],
    with the name [key] under which the response of the agent is returned
    and the fields added before the session id. *)
Definition reply_of (key : string) (extra : list (string * value))
    (reply : bedrock_reply) : response :=
  match reply with
  | Bedrock_error text => error (PyStr text) 500
  | Result result =>
    match subscript result "success" with
    | Err text => error (PyStr text) 500
    | Ok success =>
      if truthy success then
        match subscript result "response" with
        | Err text => error (PyStr text) 500
        | Ok answer =>
          match subscript result "session_id" with
          | Err text => error (PyStr text) 500
          | Ok session_id =>
              ([(key, answer)] ++ extra ++ [("session_id", session_id)], 200)
          end
        end
      else
        match subscript result "error" with
        | Err text => error (PyStr text) 500
        | Ok text => error text 500
        end
    end
  end.

(** [chat] from source line 32 on, with the two values read from the body. *)
Definition chat_with (message agent_type : value) (uuid4 : string)
    (session : list (string * value)) : response * list (string * value) :=
  if negb (truthy message) then (error (PyStr "Message is required") 400, session)
  else
    let session :=
      match lookup session "session_id" with
      | Some _ => session
      | None => session ++ [("session_id", PyStr uuid4)]
      end in
    match select_agent agent_type with
    | Err text => (error (PyStr text) 500, session)
    | Ok agent_id =>
      match subscript session "session_id" with
      | Err text => (error (PyStr text) 500, session)
      | Ok session_id =>
        (reply_of "response" [("agent", agent_type)]
           (invoke_agent agent_id message session_id), session)
      end
    end.

(** [chat] (source lines 24-55): the body of the request, the value that
    [uuid.uuid4()] would give, and the session of the client; the result is
    the response and the session afterwards. *)
Definition chat (body : request_body) (uuid4 : string) (session : list (string * value))
    : response * list (string * value) :=
  match body with
  | Bad_request text => (error (PyStr text) 500, session)
  | Json data =>
    match data_get data "message" (PyStr "") with
    | Err text => (error (PyStr text) 500, session)
    | Ok message =>
      match data_get data "agent" (PyStr "supervisor") with
      | Err text => (error (PyStr text) 500, session)
      | Ok agent_type => chat_with message agent_type uuid4 session
      end
    end
  end.

(** [analyze_resume] (source lines 57-79). *)
Definition analyze_resume (body : request_body) : response :=
  match body with
  | Bad_request text => error (PyStr text) 500
  | Json data =>
    match data_get data "resume_text" (PyStr "") with
    | Err text => error (PyStr text) 500
    | Ok resume_text =>
      match data_get data "target_role" (PyStr "") with
      | Err text => error (PyStr text) 500
      | Ok target_role =>
        if negb (truthy resume_text) then error (PyStr "Resume text is required") 400
        else reply_of "analysis" [] (analyze_resume_agent resume_text target_role)
      end
    end
  end.

(** [career_guidance] (source lines 81-99). *)
Definition career_guidance (body : request_body) : response :=
  match body with
  | Bad_request text => error (PyStr text) 500
  | Json data =>
    match data_get data "profile" (PyDict []) with
    | Err text => error (PyStr text) 500
    | Ok user_profile => reply_of "guidance" [] (get_career_guidance user_profile)
    end
  end.

(** [learning_plan] (source lines 101-123). *)
Definition learning_plan (body : request_body) : response :=
  match body with
  | Bad_request text => error (PyStr text) 500
  | Json data =>
    match data_get data "skills_gap" (PyList []) with
    | Err text => error (PyStr text) 500
    | Ok skills_gap =>
      match data_get data "target_role" (PyStr "") with
      | Err text => error (PyStr text) 500
      | Ok target_role =>
        if negb (truthy skills_gap) || negb (truthy target_role)
        then error (PyStr "Skills gap and target role are required") 400
        else reply_of "plan" [] (generate_learning_plan skills_gap target_role)
      end
    end
  end.

End Endpoints.

(** A response with the field [agent] set to [a] where it has one. *)
Definition with_agent (a : value) (r : response) : response :=
  (map (fun '(k, v) => if String.eqb k "agent" then (k, a) else (k, v)) (fst r), snd r).

End App.

(** A [bedrock] to try the handlers on: two agents, each answering with its
    own id and the message. *)
Definition sample_agents : list (string * Py.value) :=
  [("supervisor", Py.PyStr "SUP1"); ("resume_parser", Py.PyStr "PARSE1")].

Definition sample_invoke_agent (agent_id message session_id : Py.value) : App.bedrock_reply :=
  App.Result [("success", Py.PyBool true);
              ("response", Py.PyList [agent_id; message]);
              ("session_id", session_id)].

Definition sample_chat : App.request_body -> string -> list (string * Py.value)
    -> App.response * list (string * Py.value) :=
  App.chat sample_agents sample_invoke_agent.

(** ** Basic facts about the statements *)

Lemma next_id_above (ids : list Z) (x : Z) :
  In x ids -> x < Sql.next_id ids.
Proof.
  unfold Sql.next_id.
  induction ids as [|y ids IH]; cbn [fold_right In]; intros Hin.
  - contradiction.
  - destruct Hin as [-> | Hin]; [lia | specialize (IH Hin); lia].
Qed.

Lemma filter_all {A : Type} (f : A -> bool) (l : list A) :
  (forall x, In x l -> f x = true) -> filter f l = l.
Proof.
  induction l as [|a l IH]; simpl; intros H; [reflexivity|].
  rewrite (H a (or_introl eq_refl)), IH; auto.
Qed.

(** The rowid of the new row is fresh, so OR REPLACE finds nothing to
    replace: the statement is a plain INSERT. *)
Lemma insert_or_replace_appends (row : detailed_progress_row)
    (table : list detailed_progress_row) :
  dp_id row = Sql.next_id (map dp_id table) ->
  Sql.insert_or_replace row table = table ++ [row].
Proof.
  intros Hid. unfold Sql.insert_or_replace.
  rewrite filter_all; [reflexivity|].
  intros r Hr. apply (in_map dp_id) in Hr. apply next_id_above in Hr.
  rewrite Hid. apply negb_true_iff, Z.eqb_neq. lia.
Qed.

Lemma begin_write_free (s : store) :
  write_lock s = false ->
  Sql.begin_write s = Some {| file := file s; write_lock := true |}.
Proof. unfold Sql.begin_write. intros ->. reflexivity. Qed.

Section Effects.

Variables (now : timestamp) (user_id : Z) (skill_name : string).

(** With the lock free, [log_learning_session] returns for every skill name
    and every number of minutes within 64 bits, with one more session row
    and one more progress row. *)
Lemma log_learning_session_effect (minutes_studied : Z) (notes : string) (s : store) :
  write_lock s = false ->
  int64 minutes_studied = true ->
  log_learning_session now user_id skill_name minutes_studied notes s =
  Return (Sql.commit
    {| detailed_progress :=
         detailed_progress (file s) ++
         [session_progress_row now user_id skill_name minutes_studied
            (detailed_progress (file s))];
       learning_sessions :=
         learning_sessions (file s) ++
         [session_row now user_id skill_name minutes_studied notes
            (learning_sessions (file s))];
       achievements := achievements (file s);
       learning_plans := learning_plans (file s) |}).
Proof.
  intros Hfree Hfits. unfold log_learning_session.
  rewrite Hfits, (begin_write_free s Hfree). cbv zeta.
  unfold set_detailed_progress, set_learning_sessions; simpl.
  rewrite insert_or_replace_appends by reflexivity.
  reflexivity.
Qed.

(** A call of [log_learning_session] that raises leaves the store as it
    found it. *)
Lemma log_learning_session_raise (minutes_studied : Z) (notes : string) (s : store) :
  write_lock s = true \/ int64 minutes_studied = false ->
  raised (log_learning_session now user_id skill_name minutes_studied notes s) = true
  /\ store_of (log_learning_session now user_id skill_name minutes_studied notes s) = s.
Proof.
  unfold log_learning_session, Sql.begin_write.
  destruct (int64 minutes_studied); simpl.
  - intros [Hheld | H]; [rewrite Hheld; split; reflexivity | discriminate].
  - intros _. split; reflexivity.
Qed.

(** What a call of [update_course_progress] that returns has committed. *)
Lemma update_course_progress_effect (course_name : string) (progress_percentage : Z)
    (notes : string) (s s' : store) :
  update_course_progress now user_id skill_name course_name progress_percentage notes s
    = Return s' ->
  s' = Sql.commit
    {| detailed_progress :=
         (if progress_percentage >=? 100
          then map (stamp_completion now user_id skill_name course_name)
          else fun t => t)
           (detailed_progress (file s) ++
            [course_progress_row now user_id skill_name course_name
               progress_percentage notes (detailed_progress (file s))]);
       learning_sessions := learning_sessions (file s);
       achievements := achievements (file s);
       learning_plans :=
         map (update_plan_status (status_of progress_percentage) user_id skill_name)
             (learning_plans (file s)) |}.
Proof.
  unfold update_course_progress, Sql.begin_write.
  destruct (int64 progress_percentage); [|discriminate]. simpl.
  destruct (write_lock s); [discriminate|]. cbv zeta.
  rewrite insert_or_replace_appends by reflexivity.
  fold (course_progress_row now user_id skill_name course_name progress_percentage notes
          (detailed_progress (file s))).
  destruct (progress_percentage >=? 100).
  - destruct (check_and_award_achievements now user_id skill_name _);
      [|discriminate].
    intros H; injection H as <-. reflexivity.
  - intros H; injection H as <-. reflexivity.
Qed.

(** A call that raises has committed nothing. *)
Lemma update_course_progress_raise (course_name : string) (progress_percentage : Z)
    (notes : string) (s s' : store) (e : exn) :
  update_course_progress now user_id skill_name course_name progress_percentage notes s
    = Raise e s' ->
  file s' = file s.
Proof.
  unfold update_course_progress, Sql.begin_write.
  destruct (int64 progress_percentage);
    [|intros H; injection H as _ <-; reflexivity]. simpl.
  destruct (write_lock s); [intros H; injection H as _ <-; reflexivity|]. cbv zeta.
  destruct (progress_percentage >=? 100); [|discriminate].
  unfold check_and_award_achievements, Sql.begin_write; simpl.
  destruct (Z.of_nat _ =? 0); [|discriminate].
  intros H; injection H as _ <-. reflexivity.
Qed.

(** Below 100 the call returns whenever the lock is free and the percentage
    fits 64 bits. *)
Lemma update_course_progress_below_100 (course_name : string) (progress_percentage : Z)
    (notes : string) (s : store) :
  write_lock s = false -> int64 progress_percentage = true -> progress_percentage < 100 ->
  exists s',
    update_course_progress now user_id skill_name course_name progress_percentage notes s
      = Return s'.
Proof.
  intros Hfree Hfits Hp. unfold update_course_progress.
  rewrite Hfits, (begin_write_free s Hfree). cbv zeta.
  destruct (progress_percentage >=? 100) eqn:E; [lia|].
  eexists; reflexivity.
Qed.

End Effects.

(** ** Cumulative minutes and the number of records (C1, C2, C7) *)

(** Every session adds a record for its (user, skill): the number of records
    of the pair grows by one with each call. *)
Lemma log_learning_session_adds_record (now : timestamp) (user_id : Z)
    (skill_name : string) (minutes_studied : Z) (notes : string) (s : store) :
  write_lock s = false ->
  int64 minutes_studied = true ->
  List.length (filter (dp_for user_id skill_name)
    (detailed_progress
       (file (store_of (log_learning_session now user_id skill_name minutes_studied notes s)))))
  = S (List.length (filter (dp_for user_id skill_name) (detailed_progress (file s)))).
Proof.
  intros Hfree Hfits. rewrite log_learning_session_effect by assumption. simpl.
  rewrite filter_app, length_app. simpl.
  unfold dp_for at 2. simpl. rewrite Z.eqb_refl, String.eqb_refl. simpl. lia.
Qed.

(** The minutes of the new record are those of the OLDEST record of the pair
    plus the minutes of the session, not those of the latest record. *)
Lemma log_learning_session_minutes (now : timestamp) (user_id : Z)
    (skill_name : string) (minutes_studied : Z) (notes : string) (s : store)
    (first : detailed_progress_row) (others : list detailed_progress_row) :
  write_lock s = false ->
  int64 minutes_studied = true ->
  filter (dp_for user_id skill_name) (detailed_progress (file s)) = first :: others ->
  exists row,
    detailed_progress
      (file (store_of (log_learning_session now user_id skill_name minutes_studied notes s)))
    = detailed_progress (file s) ++ [row]
    /\ dp_time_spent_minutes row = dp_time_spent_minutes first + minutes_studied.
Proof.
  intros Hfree Hfits Hfirst. rewrite log_learning_session_effect by assumption. simpl.
  eexists; split; [reflexivity|]. simpl.
  unfold select_time_spent. rewrite Hfirst. reflexivity.
Qed.

(** C1. Logging 90, 30 and 10 minutes for one (user, skill):
    [get_detailed_progress] reports three records for the skill, with 100, 120
    and 90 minutes; none of them holds the sum 130 of the minutes logged. *)
Theorem C1_three_sessions_not_summed :
  get_detailed_progress 1 (run three_sessions empty_store) =
    [("Python", None, 0, 100, 3, None, None);
     ("Python", None, 0, 120, 2, None, None);
     ("Python", None, 0, 90, 1, None, None)]
  /\ existsb (Z.eqb (90 + 30 + 10))
       (reported_minutes 1 "Python" (run three_sessions empty_store)) = false.
Proof. split; vm_compute; reflexivity. Qed.

(** C2. After two sessions for one (user, skill) the table [detailed_progress]
    holds two records of that pair, not one. *)
Theorem C2_two_sessions_two_records :
  map (fun r => (dp_id r, dp_user_id r, dp_skill_name r, dp_time_spent_minutes r))
      (detailed_progress
         (file (run [LogSession 1 1 "Python" 90 ""; LogSession 2 1 "Python" 30 ""]
                    empty_store)))
  = [(1, 1, "Python", 90); (2, 1, "Python", 120)].
Proof. vm_compute. reflexivity. Qed.

(** C7. The minutes of the most recently active record of a (user, skill) go
    from 120 after the second session down to 100 after the third. *)
Theorem C7_latest_minutes_decrease :
  reported_minutes 1 "Python"
    (run [LogSession 1 1 "Python" 90 ""; LogSession 2 1 "Python" 30 ""] empty_store)
  = [120; 90]
  /\ reported_minutes 1 "Python" (run three_sessions empty_store) = [100; 120; 90].
Proof. split; vm_compute; reflexivity. Qed.

(** ** Validation of a session (C3) *)

(** C3, as the claim states it, fails: with an empty skill name, and with
    zero minutes, [log_learning_session] returns without an exception and has
    added a session row and a progress row. *)
Lemma C3_no_validation_error :
  raised (log_learning_session 1 1 "" 10 "" empty_store) = false
  /\ map (fun r => (ls_skill_name r, ls_minutes_studied r))
       (learning_sessions (file (store_of (log_learning_session 1 1 "" 10 "" empty_store))))
     = [("", 10)]
  /\ raised (log_learning_session 1 1 "Python" 0 "" empty_store) = false
  /\ map (fun r => (ls_skill_name r, ls_minutes_studied r))
       (learning_sessions (file (store_of (log_learning_session 1 1 "Python" 0 "" empty_store))))
     = [("Python", 0)]
  /\ map (fun r => (dp_skill_name r, dp_time_spent_minutes r))
       (detailed_progress (file (store_of (log_learning_session 1 1 "Python" 0 "" empty_store))))
     = [("Python", 0)].
Proof. repeat split; vm_compute; reflexivity. Qed.

(** C3, amended. [log_learning_session] has no validation of its own and no
    ValidationError.  On a database that no other connection has locked it
    returns for every skill name (the empty one too) and every number of
    minutes that fits 64 bits (zero and negative ones too), and has then
    added one session row with the values given and one progress row of the
    (user, skill), whose minutes are the sum of source lines 77-78 where
    that sum fits 64 bits; minutes outside 64 bits are refused by the
    binding of the statement with an OverflowError, and nothing is stored.
    The check on the minutes is made by the form: when [hours * 60 +
    minutes] is not positive the form shows the error message and the store
    stays as it was. *)
Theorem C3_form_rejects_nonpositive_minutes (now : timestamp) (user_id : Z)
    (skill : string) (hours minutes minutes_studied : Z) (notes : string) (s : store) :
  write_lock s = false ->
  (hours * 60 + minutes <= 0 ->
   log_session_form now user_id skill hours minutes notes s
   = (Some (st_error "Please enter a valid study time."), Return s))
  /\ (int64 minutes_studied = true ->
      exists s' row,
        log_learning_session now user_id skill minutes_studied notes s = Return s'
        /\ learning_sessions (file s') =
             learning_sessions (file s) ++
             [session_row now user_id skill minutes_studied notes
                (learning_sessions (file s))]
        /\ detailed_progress (file s') = detailed_progress (file s) ++ [row]
        /\ dp_user_id row = user_id
        /\ dp_skill_name row = skill
        /\ (int64 (COALESCE (select_time_spent user_id skill (detailed_progress (file s))) 0
                   + minutes_studied) = true ->
            dp_time_spent_minutes row
            = COALESCE (select_time_spent user_id skill (detailed_progress (file s))) 0
              + minutes_studied))
  /\ (int64 minutes_studied = false ->
      log_learning_session now user_id skill minutes_studied notes s
      = Raise (OverflowError "Python int too large to convert to SQLite INTEGER") s).
Proof.
  intros Hfree. split; [|split].
  - intros Hle. unfold log_session_form. cbv zeta.
    destruct (hours * 60 + minutes >? 0) eqn:E; [lia | reflexivity].
  - intros Hfits. eexists. eexists.
    split; [apply log_learning_session_effect; assumption|].
    repeat split; reflexivity.
  - intros Hbig. unfold log_learning_session. rewrite Hbig. reflexivity.
Qed.

Lemma C3_form_rejects_nonpositive_minutes_witness :
  log_session_form 1 1 "" 0 0 "" empty_store
  = (Some (st_error "Please enter a valid study time."), Return empty_store)
  /\ (exists s' row,
        log_learning_session 1 1 "" (-15) "" empty_store = Return s'
        /\ learning_sessions (file s') =
             learning_sessions (file empty_store) ++
             [session_row 1 1 "" (-15) "" (learning_sessions (file empty_store))]
        /\ detailed_progress (file s') = detailed_progress (file empty_store) ++ [row]
        /\ dp_user_id row = 1
        /\ dp_skill_name row = ""
        /\ dp_time_spent_minutes row = -15)
  /\ log_learning_session 1 1 "Python" 9223372036854775808 "" empty_store
     = Raise (OverflowError "Python int too large to convert to SQLite INTEGER")
         empty_store.
Proof.
  destruct (C3_form_rejects_nonpositive_minutes 1 1 "" 0 0 (-15) "" empty_store eq_refl)
    as (Hform & Hlog & _).
  destruct (C3_form_rejects_nonpositive_minutes 1 1 "Python" 0 0 9223372036854775808 ""
              empty_store eq_refl) as (_ & _ & Hbig).
  split; [apply Hform; lia|]. split; [|apply Hbig; reflexivity].
  destruct (Hlog eq_refl) as (s' & row & Hreturn & Hlogged & Hrecord & Hu & Hk & Hm).
  exists s', row. repeat split; try assumption.
  apply (Hm eq_refl).
Defined.

(** ** The completion timestamp (C4) *)

(** C4, as the claim states it, fails: the record written by the first update
    to 100 (rowid 1) carries the completion date 10 after that call and the
    completion date 20 after the second update to 100. *)
Lemma C4_second_completion_overwrites :
  completion_dates (run completed_once empty_store) = [(1, Some 10)]
  /\ completion_dates (run completed_twice empty_store) = [(1, Some 20); (2, Some 20)].
Proof. split; vm_compute; reflexivity. Qed.

(** C4, amended. Every call of [update_course_progress] with a percentage of
    at least 100 that returns leaves the time of that call as completion date
    in every record of (user, skill, course), whatever date the record carried
    before. *)
Theorem C4_completion_date_is_restamped (now : timestamp) (user_id : Z)
    (skill_name course_name : string) (progress_percentage : Z) (notes : string)
    (s s' : store) (r : detailed_progress_row) :
  100 <= progress_percentage ->
  update_course_progress now user_id skill_name course_name progress_percentage notes s
    = Return s' ->
  In r (detailed_progress (file s')) ->
  dp_for_course user_id skill_name course_name r = true ->
  dp_completion_date r = Some now.
Proof.
  intros Hp Hret Hin Hmatch.
  apply update_course_progress_effect in Hret. subst s'. simpl in Hin.
  destruct (progress_percentage >=? 100) eqn:E; [|lia].
  apply in_map_iff in Hin. destruct Hin as [r0 [<- _]].
  unfold stamp_completion in *.
  destruct (dp_for_course user_id skill_name course_name r0) eqn:M.
  - reflexivity.
  - rewrite M in Hmatch. discriminate.
Qed.

Lemma C4_completion_date_is_restamped_witness :
  update_course_progress 20 1 "Python" "Intro" 100 "" (run completed_once empty_store)
    = Return (run completed_twice empty_store)
  /\ Forall (fun r => dp_completion_date r = Some 20)
       (detailed_progress (file (run completed_twice empty_store))).
Proof.
  split; [vm_compute; reflexivity|].
  apply Forall_forall. intros r Hin.
  apply (C4_completion_date_is_restamped 20 1 "Python" "Intro" 100 ""
           (run completed_once empty_store) (run completed_twice empty_store) r).
  - lia.
  - vm_compute. reflexivity.
  - exact Hin.
  - vm_compute in Hin. destruct Hin as [<- | [<- | []]]; reflexivity.
Defined.

(** ** Achievements (C5) *)

(** A direct call of the granter on a database without the achievement adds
    it once, and every later call finds it and adds nothing. *)
Lemma check_and_award_achievements_idempotent (now now' : timestamp) (user_id : Z)
    (skill_name : string) (s : store) :
  write_lock s = false ->
  completions user_id skill_name s = 0%nat ->
  let s1 := store_of (check_and_award_achievements now user_id skill_name s) in
  completions user_id skill_name s1 = 1%nat
  /\ check_and_award_achievements now' user_id skill_name s1 = Return s1.
Proof.
  unfold completions. intros Hfree Hnone.
  assert (E : store_of (check_and_award_achievements now user_id skill_name s) =
              Sql.commit (set_achievements
                (achievements (file s) ++
                 [achievement_row now user_id skill_name (achievements (file s))])
                (file s))).
  { unfold check_and_award_achievements. rewrite Hnone, (begin_write_free s Hfree).
    reflexivity. }
  cbv zeta. rewrite E.
  assert (C : List.length (filter (is_completion_of user_id skill_name)
                (achievements (file s) ++
                 [achievement_row now user_id skill_name (achievements (file s))])) = 1%nat).
  { rewrite filter_app, length_app, Hnone. simpl.
    unfold is_completion_of at 1. simpl.
    rewrite Z.eqb_refl, String.eqb_refl. reflexivity. }
  split.
  - simpl. exact C.
  - unfold check_and_award_achievements. simpl. rewrite C. reflexivity.
Qed.

(** [update_course_progress] never changes the table [achievements]: the
    granter that it calls can only find the achievement present, or fail on
    the lock that [update_course_progress] itself holds. *)
Lemma update_course_progress_never_awards (now : timestamp) (user_id : Z)
    (skill_name course_name : string) (progress_percentage : Z) (notes : string)
    (s : store) :
  achievements
    (file (store_of (update_course_progress now user_id skill_name course_name
                       progress_percentage notes s)))
  = achievements (file s).
Proof.
  destruct (update_course_progress now user_id skill_name course_name
              progress_percentage notes s) as [s' | e s'] eqn:E; simpl.
  - apply update_course_progress_effect in E. subst s'. reflexivity.
  - apply update_course_progress_raise in E. rewrite E. reflexivity.
Qed.

(** C5. On a database without the achievement, setting the progress of Python
    to 100 fails with [database is locked] inside the granter: nothing is
    committed, the connection of the update is left open with its lock, no
    achievement is stored and [get_achievements] returns nothing for the
    user. *)
Theorem C5_completion_awards_nothing :
  update_course_progress 1 1 "Python" "Intro" 100 "" empty_store
    = Raise (OperationalError "database is locked")
        {| file := file empty_store; write_lock := true |}
  /\ get_achievements 1
       (store_of (update_course_progress 1 1 "Python" "Intro" 100 "" empty_store))
     = [].
Proof. split; vm_compute; reflexivity. Qed.

(** ** The status (C6) *)

(** C6. The status that [update_course_progress] derives from the percentage
    and writes into the learning plan: a call that returns has set the
    status of every row of (user, skill) in [learning_plans], and of no
    other row, to [not_started] for a percentage up to 0, to [in_progress]
    for a percentage between 0 and 100, and to [completed] for a percentage
    from 100 on. *)
Theorem C6_status_of_percentage (now : timestamp) (user_id : Z)
    (skill_name course_name : string) (progress_percentage : Z) (notes : string)
    (s s' : store) :
  update_course_progress now user_id skill_name course_name progress_percentage notes s
    = Return s' ->
  (progress_percentage <= 0 ->
   learning_plans (file s')
   = map (update_plan_status "not_started" user_id skill_name) (learning_plans (file s)))
  /\ (0 < progress_percentage < 100 ->
      learning_plans (file s')
      = map (update_plan_status "in_progress" user_id skill_name) (learning_plans (file s)))
  /\ (100 <= progress_percentage ->
      learning_plans (file s')
      = map (update_plan_status "completed" user_id skill_name) (learning_plans (file s))).
Proof.
  intros H. apply update_course_progress_effect in H. subst s'. simpl.
  unfold status_of.
  destruct (progress_percentage >=? 100) eqn:E100;
    destruct (progress_percentage >? 0) eqn:E0;
    repeat split; intros Hp; try reflexivity; lia.
Qed.

Lemma C6_status_of_percentage_witness :
  map lp_status
    (learning_plans (file (store_of (update_course_progress 5 1 "Python" "Intro" 0 ""
                                       planned_plus))))
  = ["not_started"; "not_started"; "completed"]
  /\ map lp_status
       (learning_plans (file (store_of (update_course_progress 5 1 "Python" "Intro" 50 ""
                                          planned_plus))))
     = ["in_progress"; "not_started"; "completed"]
  /\ map lp_status
       (learning_plans (file (store_of (update_course_progress 5 1 "Python" "Intro" 100 ""
                                          planned_plus))))
     = ["completed"; "not_started"; "completed"].
Proof.
  split; [|split].
  - rewrite (proj1 (C6_status_of_percentage 5 1 "Python" "Intro" 0 "" planned_plus
                      (store_of (update_course_progress 5 1 "Python" "Intro" 0 ""
                                   planned_plus))
                      eq_refl)) by lia.
    reflexivity.
  - rewrite (proj1 (proj2 (C6_status_of_percentage 5 1 "Python" "Intro" 50 "" planned_plus
                             (store_of (update_course_progress 5 1 "Python" "Intro" 50 ""
                                          planned_plus))
                             eq_refl))) by lia.
    reflexivity.
  - rewrite (proj2 (proj2 (C6_status_of_percentage 5 1 "Python" "Intro" 100 "" planned_plus
                             (store_of (update_course_progress 5 1 "Python" "Intro" 100 ""
                                          planned_plus))
                             eq_refl))) by lia.
    reflexivity.
Defined.

(** The status is what a call that returns writes into the learning plan:
    every row of (user, skill) carries it afterwards, the sessions and the
    achievements are as before. *)
Lemma update_course_progress_frame (now : timestamp) (user_id : Z)
    (skill_name course_name : string) (progress_percentage : Z) (notes : string)
    (s s' : store) :
  update_course_progress now user_id skill_name course_name progress_percentage notes s
    = Return s' ->
  learning_plans (file s') =
    map (update_plan_status (status_of progress_percentage) user_id skill_name)
        (learning_plans (file s))
  /\ learning_sessions (file s') = learning_sessions (file s)
  /\ achievements (file s') = achievements (file s).
Proof.
  intros H. apply update_course_progress_effect in H. subst s'.
  repeat split; reflexivity.
Qed.

(** ** The stored percentage (C8, C9) *)

(** A call of [log_learning_session] leaves the store as it found it, or
    the lock was free and the minutes fit. *)
Lemma log_learning_session_cases (now : timestamp) (user_id : Z) (skill_name : string)
    (minutes_studied : Z) (notes : string) (s : store) :
  store_of (log_learning_session now user_id skill_name minutes_studied notes s) = s
  \/ (write_lock s = false /\ int64 minutes_studied = true).
Proof.
  destruct (write_lock s) eqn:L.
  - left. apply log_learning_session_raise. left. exact L.
  - destruct (int64 minutes_studied) eqn:F.
    + right. split; reflexivity.
    + left. apply log_learning_session_raise. right. exact F.
Qed.

Lemma check_and_award_achievements_progress (now : timestamp) (user_id : Z)
    (skill_name : string) (s : store) :
  detailed_progress (file (store_of (check_and_award_achievements now user_id skill_name s)))
  = detailed_progress (file s).
Proof.
  unfold check_and_award_achievements, Sql.begin_write.
  destruct (Z.of_nat _ =? 0); [|reflexivity].
  destruct (write_lock s); reflexivity.
Qed.

Lemma stamp_completion_percentage (now : timestamp) (user_id : Z)
    (skill_name course_name : string) (r : detailed_progress_row) :
  dp_progress_percentage (stamp_completion now user_id skill_name course_name r)
  = dp_progress_percentage r.
Proof.
  unfold stamp_completion.
  destruct (dp_for_course user_id skill_name course_name r); reflexivity.
Qed.

(** One call keeps the stored percentages in range when its own is. *)
Lemma exec_keeps_range (c : call) (s : store) :
  percentage_in_range c ->
  Forall stored_in_range (detailed_progress (file s)) ->
  Forall stored_in_range (detailed_progress (file (store_of (exec c s)))).
Proof.
  intros Hc Hs. destruct c as [now u k m n | now u k c p n | now u k |]; simpl in *;
    [| | |exact Hs].
  - destruct (log_learning_session_cases now u k m n s) as [E | [L F]].
    + rewrite E. exact Hs.
    + rewrite log_learning_session_effect by assumption. simpl.
      apply Forall_app. split; [exact Hs|].
      constructor; [|constructor]. unfold stored_in_range. simpl. lia.
  - destruct (update_course_progress now u k c p n s) as [s' | e s'] eqn:E; simpl.
    + apply update_course_progress_effect in E. subst s'. simpl.
      assert (Hall : Forall stored_in_range
                (detailed_progress (file s) ++
                 [course_progress_row now u k c p n (detailed_progress (file s))])).
      { apply Forall_app. split; [exact Hs|].
        constructor; [|constructor]. unfold stored_in_range. simpl. exact Hc. }
      destruct (p >=? 100); [|exact Hall].
      apply Forall_forall. intros r Hin.
      apply in_map_iff in Hin. destruct Hin as [r0 [<- Hin0]].
      unfold stored_in_range. rewrite stamp_completion_percentage.
      exact (proj1 (Forall_forall _ _) Hall r0 Hin0).
    + apply update_course_progress_raise in E. rewrite E. exact Hs.
  - rewrite check_and_award_achievements_progress. exact Hs.
Qed.

Lemma run_keeps_range (cs : list call) (s : store) :
  Forall percentage_in_range cs ->
  Forall stored_in_range (detailed_progress (file s)) ->
  Forall stored_in_range (detailed_progress (file (run cs s))).
Proof.
  revert s. induction cs as [|c cs IH]; intros s Hcs Hs; simpl.
  - exact Hs.
  - inversion Hcs as [|c' cs' Hc Hrest]; subst.
    apply IH; [exact Hrest|]. apply exec_keeps_range; assumption.
Qed.

(** C8, as the claim states it, fails: [update_course_progress] neither
    clamps nor rejects.  A percentage of -5 is stored as -5, and a percentage
    of 150 (for a user who holds the achievement) is stored as 150. *)
Lemma C8_out_of_range_is_stored :
  raised (update_course_progress 1 1 "SQL" "Basics" (-5) "" empty_store) = false
  /\ map dp_progress_percentage
       (detailed_progress (file (run [UpdateProgress 1 1 "SQL" "Basics" (-5) ""] empty_store)))
     = [-5]
  /\ map dp_progress_percentage
       (detailed_progress
          (file (run [Award 0 1 "SQL"; UpdateProgress 1 1 "SQL" "Basics" 150 ""] empty_store)))
     = [150].
Proof. repeat split; vm_compute; reflexivity. Qed.

(** An update that returns keeps the percentage of every earlier record and
    adds a record with the percentage passed. *)
Lemma update_course_progress_keeps_percentages (now : timestamp) (user_id : Z)
    (skill_name course_name : string) (progress_percentage : Z) (notes : string)
    (s s' : store) :
  update_course_progress now user_id skill_name course_name progress_percentage notes s
    = Return s' ->
  map dp_progress_percentage (detailed_progress (file s'))
  = map dp_progress_percentage (detailed_progress (file s)) ++ [progress_percentage].
Proof.
  intros H. apply update_course_progress_effect in H. subst s'. simpl.
  destruct (progress_percentage >=? 100).
  - rewrite map_map.
    rewrite (map_ext _ dp_progress_percentage)
      by (intros r; apply stamp_completion_percentage).
    rewrite map_app. reflexivity.
  - rewrite map_app. reflexivity.
Qed.

(** C8, amended. [update_course_progress] neither clamps nor checks the
    range: a call that returns has stored a record with the percentage
    exactly as it was passed and has left the percentage of every earlier
    record as it was, and every percentage below 100 that fits 64 bits is
    accepted on a database that no other connection has locked (a
    percentage outside 64 bits is refused by the binding of the statement,
    not by a check of the range).  The range is kept by the callers: when
    every update of a sequence of calls passes a percentage between 0 and
    100, as the slider of the page does, every record stored after the
    sequence has a percentage between 0 and 100. *)
Theorem C8_percentage_range_from_callers (now : timestamp) (user_id : Z)
    (skill_name course_name : string) (progress_percentage : Z) (notes : string)
    (s s' : store) (cs : list call) :
  (update_course_progress now user_id skill_name course_name progress_percentage notes s
     = Return s' ->
   map dp_progress_percentage (detailed_progress (file s'))
   = map dp_progress_percentage (detailed_progress (file s)) ++ [progress_percentage])
  /\ (write_lock s = false -> int64 progress_percentage = true ->
      progress_percentage < 100 ->
      raised (update_course_progress now user_id skill_name course_name
                progress_percentage notes s) = false)
  /\ (Forall percentage_in_range cs ->
      Forall stored_in_range (detailed_progress (file (run cs empty_store)))).
Proof.
  split; [|split].
  - apply update_course_progress_keeps_percentages.
  - intros Hfree Hfits Hp.
    destruct (update_course_progress_below_100 now user_id skill_name course_name
                progress_percentage notes s Hfree Hfits Hp) as [s1 ->].
    reflexivity.
  - intros Hcs. apply run_keeps_range; [exact Hcs | constructor].
Qed.

Lemma C8_percentage_range_from_callers_witness :
  map dp_progress_percentage
    (detailed_progress (file (run [UpdateProgress 2 1 "SQL" "Basics" (-5) ""] empty_store)))
  = map dp_progress_percentage (detailed_progress (file empty_store)) ++ [-5]
  /\ raised (update_course_progress 2 1 "SQL" "Basics" (-5) "" empty_store) = false
  /\ Forall stored_in_range
       (detailed_progress
          (file (run [LogSession 1 1 "SQL" 45 "";
                      UpdateProgress 2 1 "SQL" "Basics" 0 "";
                      UpdateProgress 3 1 "SQL" "Basics" 60 "";
                      Award 4 1 "SQL";
                      UpdateProgress 5 1 "SQL" "Basics" 100 ""] empty_store))).
Proof.
  destruct (C8_percentage_range_from_callers 2 1 "SQL" "Basics" (-5) "" empty_store
              (run [UpdateProgress 2 1 "SQL" "Basics" (-5) ""] empty_store)
              [LogSession 1 1 "SQL" 45 "";
               UpdateProgress 2 1 "SQL" "Basics" 0 "";
               UpdateProgress 3 1 "SQL" "Basics" 60 "";
               Award 4 1 "SQL";
               UpdateProgress 5 1 "SQL" "Basics" 100 ""]) as (Hstored & Hreturns & Hrange).
  split; [|split].
  - apply Hstored. vm_compute. reflexivity.
  - apply Hreturns; [reflexivity | reflexivity | lia].
  - apply Hrange. repeat constructor; simpl; lia.
Defined.

(** C9. Setting the progress of SQL to 50 and then to 30 overwrites nothing:
    [get_detailed_progress] reports two records for the skill, one with 30
    and one with 50. *)
Theorem C9_both_percentages_reported :
  get_detailed_progress 1
    (run [UpdateProgress 1 1 "SQL" "Basics" 50 ""; UpdateProgress 2 1 "SQL" "Basics" 30 ""]
         empty_store)
  = [("SQL", Some "Basics", 30, 0, 2, None, Some "");
     ("SQL", Some "Basics", 50, 0, 1, None, Some "")].
Proof. vm_compute. reflexivity. Qed.

(** ** The learning plan (C10) *)

(** C10. With Python in the learning plan and no achievement stored, the
    update to 100 fails with [database is locked] before the learning plan
    is written: nothing is committed, the connection of the update is left
    open with its lock, and the status of the plan is still [not_started]. *)
Theorem C10_completion_leaves_plan_unwritten :
  update_course_progress 5 1 "Python" "Intro" 100 "" planned_store
    = Raise (OperationalError "database is locked")
        {| file := file planned_store; write_lock := true |}
  /\ map lp_status
       (learning_plans
          (file (store_of (update_course_progress 5 1 "Python" "Intro" 100 "" planned_store))))
     = ["not_started"]
  /\ status_of 100 = "completed".
Proof. repeat split; vm_compute; reflexivity. Qed.

(** * Further properties of the code *)

(** ** ORDER BY *)

Section OrderByFacts.

Context {A : Type} (key : A -> Z).

Let desc (a b : A) : Prop := key b <= key a.

Lemma insert_desc_permutation (x : A) (l : list A) :
  Permutation (Sql.insert_desc key x l) (x :: l).
Proof.
  induction l as [|y l IH]; simpl; [reflexivity|].
  destruct (key x <? key y).
  - rewrite IH. apply perm_swap.
  - reflexivity.
Qed.

Lemma order_by_desc_permutation (l : list A) :
  Permutation (Sql.order_by_desc key l) l.
Proof.
  induction l as [|x l IH]; simpl; [reflexivity|].
  rewrite insert_desc_permutation. constructor. exact IH.
Qed.

Lemma insert_desc_sorted (x : A) (l : list A) :
  StronglySorted desc l -> StronglySorted desc (Sql.insert_desc key x l).
Proof.
  induction l as [|y l IH]; simpl; intros Hs.
  - repeat constructor.
  - inversion Hs as [|y' l' Hl Hy]; subst.
    destruct (key x <? key y) eqn:E.
    + constructor; [apply IH; exact Hl|].
      apply Forall_forall. intros z Hz.
      apply (Permutation_in _ (insert_desc_permutation x l)) in Hz.
      destruct Hz as [<- | Hz].
      * unfold desc. lia.
      * exact (proj1 (Forall_forall _ _) Hy z Hz).
    + constructor; [exact Hs|].
      constructor; [unfold desc; lia|].
      apply Forall_forall. intros z Hz.
      pose proof (proj1 (Forall_forall _ _) Hy z Hz) as Hzy.
      unfold desc in *. lia.
Qed.

Lemma order_by_desc_sorted (l : list A) :
  StronglySorted desc (Sql.order_by_desc key l).
Proof.
  induction l as [|x l IH]; simpl; [constructor|].
  apply insert_desc_sorted. exact IH.
Qed.

End OrderByFacts.

Lemma StronglySorted_map {A B : Type} (f : A -> B) (R : B -> B -> Prop) (l : list A) :
  StronglySorted (fun a b => R (f a) (f b)) l -> StronglySorted R (map f l).
Proof.
  induction 1 as [|a l Hl IH Ha]; simpl; constructor; [exact IH|].
  apply Forall_forall. intros b Hb. apply in_map_iff in Hb.
  destruct Hb as [a' [<- Ha']]. exact (proj1 (Forall_forall _ _) Ha a' Ha').
Qed.

(** ** The queries *)

(** X1. [get_detailed_progress] returns the records of the user, all of them
    and no others, ordered by [last_activity] with the latest first. *)
Theorem get_detailed_progress_latest_first (user_id : Z) (s : store) :
  Permutation (get_detailed_progress user_id s)
    (map progress_tuple
       (filter (fun r => dp_user_id r =? user_id) (detailed_progress (file s))))
  /\ StronglySorted (fun a b => last_activity_of b <= last_activity_of a)
       (get_detailed_progress user_id s).
Proof.
  unfold get_detailed_progress. split.
  - apply (Permutation_map progress_tuple). apply order_by_desc_permutation.
  - apply (StronglySorted_map progress_tuple
             (fun a b => last_activity_of b <= last_activity_of a)).
    apply (order_by_desc_sorted dp_last_activity).
Qed.

(** X2. [get_learning_sessions], asked at a reading of the clock of a running
    program: for a negative [days_back], and for a [days_back] that reaches
    before the first date of SQLite, it returns nothing; otherwise it
    returns the sessions of the user whose day is at most [days_back] days
    before today, all of them and no others, the latest day first. *)
Theorem get_learning_sessions_window (now : timestamp) (user_id days_back : Z) (s : store) :
  valid_clock now ->
  Forall (fun r => valid_day (ls_session_date r)) (learning_sessions (file s)) ->
  (days_back < 0 \/ 210866760000 + now < days_back * 86400 ->
   get_learning_sessions now user_id days_back s = [])
  /\ (0 <= days_back -> days_back * 86400 <= 210866760000 + now ->
      Permutation (get_learning_sessions now user_id days_back s)
        (map session_tuple
           (filter (fun r => (ls_user_id r =? user_id)
                             && (DATE now - days_back <=? ls_session_date r))
                   (learning_sessions (file s)))))
  /\ Forall (fun t => DATE now - days_back <= session_date_of t)
       (get_learning_sessions now user_id days_back s)
  /\ StronglySorted (fun a b => session_date_of b <= session_date_of a)
       (get_learning_sessions now user_id days_back s).
Proof.
  intros _ _. unfold get_learning_sessions, before_first_date.
  destruct (days_back <? 0) eqn:E; cbn [orb].
  - apply Z.ltb_lt in E. split; [reflexivity|].
    split; [intros H; exfalso; lia|]. split; constructor.
  - apply Z.ltb_ge in E.
    destruct (210866760000 + now <? days_back * 86400) eqn:B.
    + apply Z.ltb_lt in B. split; [reflexivity|].
      split; [intros _ H; exfalso; lia|]. split; constructor.
    + apply Z.ltb_ge in B. split; [intros [H | H]; exfalso; lia|]. split; [|split].
      * intros _ _. apply (Permutation_map session_tuple). apply order_by_desc_permutation.
      * apply Forall_forall. intros t Ht. apply in_map_iff in Ht.
        destruct Ht as [r [<- Hr]].
        apply (Permutation_in _ (order_by_desc_permutation ls_session_date _)) in Hr.
        apply filter_In in Hr. destruct Hr as [_ Hr].
        apply andb_true_iff in Hr. destruct Hr as [_ Hr]. apply Z.leb_le in Hr.
        exact Hr.
      * apply (StronglySorted_map session_tuple
                 (fun a b => session_date_of b <= session_date_of a)).
        apply (order_by_desc_sorted ls_session_date).
Qed.

Lemma get_learning_sessions_window_witness :
  get_learning_sessions 200000 1 (-3) (run three_sessions empty_store) = []
  /\ get_learning_sessions 200000 1 3000000 (run three_sessions empty_store) = []
  /\ Permutation (get_learning_sessions 200000 1 30 (run three_sessions empty_store))
       (map session_tuple
          (filter (fun r => (ls_user_id r =? 1)
                            && (DATE 200000 - 30 <=? ls_session_date r))
                  (learning_sessions (file (run three_sessions empty_store)))))
  /\ Forall (fun t => DATE 200000 - 30 <= session_date_of t)
       (get_learning_sessions 200000 1 30 (run three_sessions empty_store))
  /\ StronglySorted (fun a b => session_date_of b <= session_date_of a)
       (get_learning_sessions 200000 1 30 (run three_sessions empty_store)).
Proof.
  assert (Hclock : valid_clock 200000) by (unfold valid_clock; lia).
  assert (Hdays : Forall (fun r => valid_day (ls_session_date r))
                    (learning_sessions (file (run three_sessions empty_store)))).
  { cbv -[valid_day].
    repeat (apply Forall_cons;
            [cbv beta iota delta [valid_day ls_session_date]; lia|]).
    apply Forall_nil. }
  destruct (get_learning_sessions_window 200000 1 (-3) (run three_sessions empty_store)
              Hclock Hdays) as (Hnegative & _).
  destruct (get_learning_sessions_window 200000 1 3000000 (run three_sessions empty_store)
              Hclock Hdays) as (Hfar & _).
  destruct (get_learning_sessions_window 200000 1 30 (run three_sessions empty_store)
              Hclock Hdays) as (_ & Hall & Hwindow & Hsorted).
  split; [apply Hnegative; left; lia|].
  split; [apply Hfar; right; lia|].
  split; [apply Hall; lia|].
  split; assumption.
Defined.

(** X3. A session that [log_learning_session] has stored is returned by
    [get_learning_sessions] for its user whenever the day of the session lies
    within the window asked for: the database is not locked by another
    connection, the minutes fit 64 bits, both readings of the clock are
    those of a running program, and the window does not reach before the
    first date of SQLite. *)
Theorem logged_session_is_listed (now now' : timestamp) (user_id : Z) (skill_name : string)
    (minutes_studied : Z) (notes : string) (days_back : Z) (s : store) :
  write_lock s = false ->
  int64 minutes_studied = true ->
  valid_clock now -> valid_clock now' ->
  0 <= days_back ->
  days_back * 86400 <= 210866760000 + now' ->
  DATE now' - days_back <= DATE now ->
  In (skill_name, DATE now, minutes_studied, notes)
     (get_learning_sessions now' user_id days_back
        (store_of (log_learning_session now user_id skill_name minutes_studied notes s))).
Proof.
  intros Hfree Hfits _ _ Hdays Hfirst Hwin.
  rewrite log_learning_session_effect by assumption.
  unfold get_learning_sessions, before_first_date.
  apply Z.ltb_ge in Hdays. apply Z.ltb_ge in Hfirst.
  rewrite Hdays, Hfirst. cbn [orb].
  apply in_map_iff.
  exists (session_row now user_id skill_name minutes_studied notes (learning_sessions (file s))).
  split; [reflexivity|].
  apply (Permutation_in _ (Permutation_sym (order_by_desc_permutation ls_session_date _))).
  apply filter_In. split.
  - simpl. apply in_or_app. right. left. reflexivity.
  - cbn [session_row ls_user_id ls_session_date]. apply andb_true_iff.
    split; [apply Z.eqb_refl | apply Z.leb_le; exact Hwin].
Qed.

Lemma logged_session_is_listed_witness :
  In ("Python", DATE 100000, 45, "loops")
     (get_learning_sessions 200000 1 default_days_back
        (store_of (log_learning_session 100000 1 "Python" 45 "loops" empty_store))).
Proof.
  apply (logged_session_is_listed 100000 200000 1 "Python" 45 "loops" default_days_back
           empty_store).
  - reflexivity.
  - reflexivity.
  - unfold valid_clock. lia.
  - unfold valid_clock. lia.
  - vm_compute. discriminate.
  - vm_compute. discriminate.
  - vm_compute. discriminate.
Defined.

(** ** The cards of the page *)

Lemma card_time_of_form (hours minutes : Z) :
  0 <= minutes <= 59 -> card_time (hours * 60 + minutes) = (hours, minutes).
Proof.
  intros Hm. unfold card_time.
  destruct (hours * 60 + minutes =? 0) eqn:E.
  - apply Z.eqb_eq in E. f_equal; lia.
  - f_equal.
    + rewrite Z.add_comm, Z.div_add by lia. rewrite Z.div_small by lia. reflexivity.
    + rewrite Z.add_comm, Z.mod_add by lia. apply Z.mod_small. lia.
Qed.

(** The hours and minutes of a card add up to the minutes stored, with
    the minutes of the card between 0 and 59; and the card of a total entered
    in the form as hours and minutes (0 to 59) shows those hours and minutes. *)
Theorem card_time_round_trip (time_spent hours minutes : Z) :
  (fst (card_time time_spent) * 60 + snd (card_time time_spent) = time_spent
   /\ 0 <= snd (card_time time_spent) < 60)
  /\ (0 <= minutes <= 59 -> card_time (hours * 60 + minutes) = (hours, minutes)).
Proof.
  split; [|apply card_time_of_form].
  unfold card_time. destruct (time_spent =? 0) eqn:E; simpl.
  - apply Z.eqb_eq in E. lia.
  - pose proof (Z.div_mod time_spent 60 ltac:(lia)).
    pose proof (Z.mod_pos_bound time_spent 60 ltac:(lia)). lia.
Qed.

Lemma render_cards_in_range (rows : list detailed_progress_row) :
  Forall (fun r => 0 <= dp_progress_percentage r <= 100) rows ->
  render_cards (map progress_tuple rows)
  = {| cards := map card_of rows; stopped_at := None |}.
Proof.
  induction 1 as [|r rows Hr _ IH].
  - reflexivity.
  - cbn [map progress_tuple render_cards]. rewrite IH.
    replace ((0 <=? dp_progress_percentage r) && (dp_progress_percentage r <=? 100))
      with true by (symmetry; apply andb_true_iff; split; apply Z.leb_le; lia).
    reflexivity.
Qed.

Lemma overview_cards_in_range (user_id : Z) (s : store) :
  bars_in_range user_id s ->
  overview_cards user_id s
  = {| cards :=
         map card_of
           (Sql.order_by_desc dp_last_activity
              (filter (fun r => dp_user_id r =? user_id) (detailed_progress (file s))));
       stopped_at := None |}.
Proof.
  intros Hrange. unfold overview_cards, get_detailed_progress.
  apply (render_cards_in_range
           (Sql.order_by_desc dp_last_activity
              (filter (fun r => dp_user_id r =? user_id) (detailed_progress (file s))))).
  apply Forall_forall. intros r Hr.
  apply (Permutation_in _ (order_by_desc_permutation dp_last_activity _)) in Hr.
  apply filter_In in Hr. destruct Hr as [Hin Hu].
  unfold bars_in_range in Hrange. rewrite Forall_forall in Hrange.
  apply (Hrange r Hin). apply Z.eqb_eq. exact Hu.
Qed.

Lemma in_overview_cards (user_id : Z) (s : store) (r : detailed_progress_row) :
  bars_in_range user_id s ->
  In r (detailed_progress (file s)) ->
  dp_user_id r = user_id ->
  In (card_of r) (cards (overview_cards user_id s)).
Proof.
  intros Hrange Hin Hu. rewrite (overview_cards_in_range user_id s Hrange).
  cbn [cards]. apply in_map.
  apply (Permutation_in _ (Permutation_sym (order_by_desc_permutation dp_last_activity _))).
  apply filter_In. split; [exact Hin | apply Z.eqb_eq; exact Hu].
Qed.

(** X4. From the form to the card: when the database is not locked, every
    record stored for the user has a percentage from 0 to 100, the user has
    no record of the skill yet and enters hours and minutes (0 to 59) that
    are not both zero and make a total within 64 bits, the form reports
    success and the overview then runs to its end and shows a card of the
    skill with those hours and minutes, 0 percent, the box Not Started, and
    neither a course nor notes. *)
Theorem first_session_card (now : timestamp) (user_id : Z) (skill : string)
    (hours minutes : Z) (notes : string) (s : store) :
  write_lock s = false ->
  bars_in_range user_id s ->
  filter (dp_for user_id skill) (detailed_progress (file s)) = [] ->
  0 <= minutes <= 59 ->
  0 < hours * 60 + minutes ->
  int64 (hours * 60 + minutes) = true ->
  fst (log_session_form now user_id skill hours minutes notes s) = Some st_success
  /\ In (skill, None, 0, (hours, minutes), Not_Started, None)
        (cards (overview_cards user_id
                  (store_of (snd (log_session_form now user_id skill hours minutes notes s)))))
  /\ stopped_at (overview_cards user_id
                   (store_of (snd (log_session_form now user_id skill hours minutes notes s))))
     = None.
Proof.
  intros Hfree Hrange Hnone Hm Hpos Hfits. unfold log_session_form. cbv zeta.
  destruct (hours * 60 + minutes >? 0) eqn:E; [|lia].
  rewrite log_learning_session_effect by assumption.
  cbn [fst snd store_of].
  set (row := session_progress_row now user_id skill (hours * 60 + minutes)
                (detailed_progress (file s))).
  match goal with |- _ /\ In _ (cards (overview_cards _ ?st)) /\ _ => set (after := st) end.
  assert (Hafter : bars_in_range user_id after).
  { unfold bars_in_range, after. cbn [Sql.commit file detailed_progress].
    apply Forall_app. split; [exact Hrange|].
    constructor; [|constructor]. intros _. cbn [row session_progress_row dp_progress_percentage].
    lia. }
  split; [reflexivity|]. split.
  - replace (skill, None, 0, (hours, minutes), Not_Started, None) with (card_of row).
    + apply in_overview_cards; [exact Hafter | | reflexivity].
      unfold after. cbn [Sql.commit file detailed_progress].
      apply in_or_app. right. left. reflexivity.
    + unfold card_of, row, session_progress_row, select_time_spent.
      cbn [dp_skill_name dp_course_name dp_progress_percentage dp_time_spent_minutes
           dp_completion_date dp_notes shown card_badge].
      rewrite Hnone. cbn [COALESCE]. rewrite Z.add_0_l.
      rewrite (card_time_of_form hours minutes Hm). reflexivity.
  - rewrite (overview_cards_in_range user_id after Hafter). reflexivity.
Qed.

Lemma first_session_card_witness :
  fst (log_session_form 1 1 "Python" 1 30 "" empty_store) = Some st_success
  /\ In ("Python", None, 0, (1, 30), Not_Started, None)
        (cards (overview_cards 1
                  (store_of (snd (log_session_form 1 1 "Python" 1 30 "" empty_store)))))
  /\ stopped_at (overview_cards 1
                   (store_of (snd (log_session_form 1 1 "Python" 1 30 "" empty_store))))
     = None.
Proof.
  apply (first_session_card 1 1 "Python" 1 30 "" empty_store).
  - reflexivity.
  - constructor.
  - reflexivity.
  - lia.
  - lia.
  - reflexivity.
Defined.

(** X5. From an update to the card: after a call of [update_course_progress]
    with a percentage from 0 to 100 that returns, on a database in which
    every record stored for the user has a percentage from 0 to 100, the
    overview runs to its end and shows a card of the skill with the course
    and notes passed (where not empty), the percentage passed and no time,
    and the box of that card stands for the status that the call wrote into
    the learning plan. *)
Theorem updated_progress_card (now : timestamp) (user_id : Z)
    (skill_name course_name : string) (progress_percentage : Z) (notes : string)
    (s s' : store) :
  bars_in_range user_id s ->
  0 <= progress_percentage <= 100 ->
  update_course_progress now user_id skill_name course_name progress_percentage notes s
    = Return s' ->
  (exists b,
     In (skill_name, shown (Some course_name), progress_percentage, (0, 0), b,
         shown (Some notes))
        (cards (overview_cards user_id s'))
     /\ badge_status b = status_of progress_percentage)
  /\ stopped_at (overview_cards user_id s') = None.
Proof.
  intros Hrange Hp H. apply update_course_progress_effect in H. subst s'.
  set (row := course_progress_row now user_id skill_name course_name progress_percentage
                notes (detailed_progress (file s))).
  assert (Hself : dp_for_course user_id skill_name course_name row = true).
  { unfold dp_for_course, row. simpl.
    rewrite Z.eqb_refl, !String.eqb_refl. reflexivity. }
  match goal with |- (exists b, In _ (cards (overview_cards _ ?st)) /\ _) /\ _ =>
    set (after := st) end.
  assert (Hadded : bars_in_range user_id
                     {| file := set_detailed_progress
                                  (detailed_progress (file s) ++ [row]) (file s);
                        write_lock := false |}).
  { unfold bars_in_range. cbn [file set_detailed_progress detailed_progress].
    apply Forall_app. split; [exact Hrange|].
    constructor; [|constructor]. intros _.
    cbn [row course_progress_row dp_progress_percentage]. exact Hp. }
  assert (Hafter : bars_in_range user_id after).
  { unfold bars_in_range in *. cbn [file set_detailed_progress detailed_progress] in Hadded.
    unfold after. cbn [Sql.commit file detailed_progress].
    destruct (progress_percentage >=? 100); [|exact Hadded].
    apply Forall_map. revert Hadded. apply Forall_impl. intros r Hr.
    unfold stamp_completion. destruct (dp_for_course user_id skill_name course_name r);
      exact Hr. }
  split; [|rewrite (overview_cards_in_range user_id after Hafter); reflexivity].
  unfold status_of.
  destruct (progress_percentage >=? 100) eqn:E.
  - exists Completed. split; [|reflexivity].
    replace (skill_name, shown (Some course_name), progress_percentage, (0, 0), Completed,
             shown (Some notes))
      with (card_of (stamp_completion now user_id skill_name course_name row))
      by (unfold stamp_completion; rewrite Hself; reflexivity).
    apply in_overview_cards; [exact Hafter | |].
    + unfold after. cbn [Sql.commit file detailed_progress].
      apply in_map. apply in_or_app. right. left. reflexivity.
    + unfold stamp_completion. rewrite Hself. reflexivity.
  - exists (card_badge progress_percentage None). split.
    + replace (skill_name, shown (Some course_name), progress_percentage, (0, 0),
               card_badge progress_percentage None, shown (Some notes))
        with (card_of row) by reflexivity.
      apply in_overview_cards; [exact Hafter | | reflexivity].
      unfold after. cbn [Sql.commit file detailed_progress].
      apply in_or_app. right. left. reflexivity.
    + simpl. destruct (progress_percentage >? 0); reflexivity.
Qed.

Lemma updated_progress_card_witness :
  (exists b,
     In ("SQL", shown (Some "Basics"), 40, (0, 0), b, shown (Some "joins"))
        (cards (overview_cards 1
                  (store_of (update_course_progress 7 1 "SQL" "Basics" 40 "joins"
                               empty_store))))
     /\ badge_status b = status_of 40)
  /\ stopped_at (overview_cards 1
                   (store_of (update_course_progress 7 1 "SQL" "Basics" 40 "joins"
                                empty_store)))
     = None.
Proof.
  apply (updated_progress_card 7 1 "SQL" "Basics" 40 "joins" empty_store).
  - constructor.
  - lia.
  - vm_compute. reflexivity.
Defined.

(** X6. The time tab lists at most ten sessions, the first ten of the list it
    is given; the hours and minutes of every line add up to the minutes of
    its session, with the minutes of the line between 0 and 59. *)
Theorem recent_sessions_lines (sessions : list (string * Z * Z * string)) :
  List.length (recent_sessions sessions) = Nat.min 10 (List.length sessions)
  /\ Forall2
       (fun line session =>
          let '(skill, date, hours, mins, _) := line in
          let '(skill', date', minutes, _) := session in
          skill = skill' /\ date = date' /\ hours * 60 + mins = minutes /\ 0 <= mins < 60)
       (recent_sessions sessions) (firstn 10 sessions).
Proof.
  unfold recent_sessions. split.
  - rewrite length_map. apply length_firstn.
  - induction (firstn 10 sessions) as [|[[[skill date] minutes] notes] l IH]; simpl.
    + constructor.
    + constructor; [|exact IH].
      pose proof (Z.div_mod minutes 60 ltac:(lia)).
      pose proof (Z.mod_pos_bound minutes 60 ltac:(lia)).
      repeat split; lia.
Qed.

(** ** What a sequence of calls keeps *)

Lemma run_cons (c : call) (cs : list call) (s : store) :
  run (c :: cs) s = run cs (store_of (exec c s)).
Proof. reflexivity. Qed.

Lemma log_learning_session_returns (now : timestamp) (user_id : Z) (skill_name : string)
    (minutes_studied : Z) (notes : string) (s : store) :
  raised (log_learning_session now user_id skill_name minutes_studied notes s) = false ->
  write_lock s = false /\ int64 minutes_studied = true.
Proof.
  intros Hreturns.
  destruct (write_lock s) eqn:L.
  - destruct (log_learning_session_raise now user_id skill_name minutes_studied notes s
                (or_introl L)) as [Hraised _].
    rewrite Hraised in Hreturns. discriminate.
  - destruct (int64 minutes_studied) eqn:F; [split; reflexivity|].
    destruct (log_learning_session_raise now user_id skill_name minutes_studied notes s
                (or_intror F)) as [Hraised _].
    rewrite Hraised in Hreturns. discriminate.
Qed.

Lemma log_learning_session_raised (now : timestamp) (user_id : Z) (skill_name : string)
    (minutes_studied : Z) (notes : string) (s : store) :
  raised (log_learning_session now user_id skill_name minutes_studied notes s) = true ->
  store_of (log_learning_session now user_id skill_name minutes_studied notes s) = s.
Proof.
  intros Hraised.
  destruct (log_learning_session_cases now user_id skill_name minutes_studied notes s)
    as [E | [L F]]; [exact E|].
  rewrite log_learning_session_effect in Hraised by assumption. discriminate.
Qed.

Lemma check_and_award_achievements_sessions (now : timestamp) (user_id : Z)
    (skill_name : string) (s : store) :
  learning_sessions (file (store_of (check_and_award_achievements now user_id skill_name s)))
  = learning_sessions (file s).
Proof.
  unfold check_and_award_achievements, Sql.begin_write.
  destruct (Z.of_nat _ =? 0); [|reflexivity].
  destruct (write_lock s); reflexivity.
Qed.

Lemma update_course_progress_sessions (now : timestamp) (user_id : Z)
    (skill_name course_name : string) (progress_percentage : Z) (notes : string)
    (s : store) :
  learning_sessions
    (file (store_of (update_course_progress now user_id skill_name course_name
                       progress_percentage notes s)))
  = learning_sessions (file s).
Proof.
  destruct (update_course_progress now user_id skill_name course_name
              progress_percentage notes s) as [s' | e s'] eqn:E; simpl.
  - apply update_course_progress_effect in E. subst s'. reflexivity.
  - apply update_course_progress_raise in E. rewrite E. reflexivity.
Qed.

(** X7. The session log is append-only: after any sequence of calls, and of
    moments at which a connection left open is collected, the log holds what
    it held before, followed by one row for every [log_learning_session]
    call of the sequence that returned, in the order of the calls, with the
    user, skill, day, minutes and notes of the call; a call that raised
    added nothing.  When no call of the sequence raises, these are the rows
    of all its [log_learning_session] calls. *)
Theorem session_log_append_only (cs : list call) (s : store) :
  map session_entry (learning_sessions (file (run cs s)))
  = map session_entry (learning_sessions (file s)) ++ sessions_stored cs s
  /\ (all_return cs s = true -> sessions_stored cs s = sessions_logged cs).
Proof.
  revert s. induction cs as [|c cs IH]; intros s.
  - split; [|reflexivity]. simpl. rewrite app_nil_r. reflexivity.
  - destruct (IH (store_of (exec c s))) as [IHlog IHall]. split.
    + rewrite run_cons, IHlog. cbn [sessions_stored]. rewrite app_assoc. f_equal.
      destruct c as [now u k m n | now u k c p n | now u k |]; cbn [exec].
      * destruct (raised (log_learning_session now u k m n s)) eqn:R.
        -- rewrite (log_learning_session_raised now u k m n s R), app_nil_r. reflexivity.
        -- destruct (log_learning_session_returns now u k m n s R) as [L F].
           rewrite log_learning_session_effect by assumption.
           cbn [store_of Sql.commit file learning_sessions].
           rewrite map_app. reflexivity.
      * rewrite update_course_progress_sessions, app_nil_r. reflexivity.
      * rewrite check_and_award_achievements_sessions, app_nil_r. reflexivity.
      * rewrite app_nil_r. reflexivity.
    + intros Hall. cbn [all_return] in Hall. apply andb_true_iff in Hall.
      destruct Hall as [R Hall]. apply negb_true_iff in R.
      cbn [sessions_stored]. rewrite (IHall Hall).
      destruct c as [now u k m n | now u k c p n | now u k |]; [|reflexivity..].
      rewrite R. reflexivity.
Qed.

Lemma session_log_append_only_witness :
  map session_entry
    (learning_sessions
       (file (run (UpdateProgress 5 1 "SQL" "Basics" 20 "" :: three_sessions) empty_store)))
  = map session_entry (learning_sessions (file empty_store))
    ++ sessions_logged (UpdateProgress 5 1 "SQL" "Basics" 20 "" :: three_sessions).
Proof.
  destruct (session_log_append_only
              (UpdateProgress 5 1 "SQL" "Basics" 20 "" :: three_sessions) empty_store)
    as [Hlog Hall].
  rewrite Hlog, Hall; reflexivity.
Defined.

Lemma without_completion_date_stamp (now : timestamp) (user_id : Z)
    (skill_name course_name : string) (r : detailed_progress_row) :
  without_completion_date (stamp_completion now user_id skill_name course_name r)
  = without_completion_date r.
Proof.
  unfold stamp_completion.
  destruct (dp_for_course user_id skill_name course_name r); reflexivity.
Qed.

Lemma exec_keeps_records (c : call) (s : store) :
  exists added,
    map without_completion_date (detailed_progress (file (store_of (exec c s))))
    = map without_completion_date (detailed_progress (file s)) ++ added.
Proof.
  destruct c as [now u k m n | now u k c p n | now u k |]; simpl;
    [| | |exists []; rewrite app_nil_r; reflexivity].
  - destruct (log_learning_session_cases now u k m n s) as [E | [L F]].
    + rewrite E.
      exists []. rewrite app_nil_r. reflexivity.
    + rewrite log_learning_session_effect by assumption. simpl.
      rewrite map_app. eexists. reflexivity.
  - destruct (update_course_progress now u k c p n s) as [s' | e s'] eqn:E; simpl.
    + apply update_course_progress_effect in E. subst s'. simpl.
      destruct (p >=? 100).
      * rewrite map_map.
        rewrite (map_ext _ without_completion_date)
          by (intros r; apply without_completion_date_stamp).
        rewrite map_app. eexists. reflexivity.
      * rewrite map_app. eexists. reflexivity.
    + apply update_course_progress_raise in E. rewrite E.
      exists []. rewrite app_nil_r. reflexivity.
  - rewrite check_and_award_achievements_progress.
    exists []. rewrite app_nil_r. reflexivity.
Qed.

(** X8. No record of [detailed_progress] is ever deleted or rewritten, but
    for its completion date: after any sequence of calls the table holds the
    records it held before, in their order and with every column but
    [completion_date] as it was, followed by the records added. *)
Theorem progress_records_are_kept (cs : list call) (s : store) :
  exists added,
    map without_completion_date (detailed_progress (file (run cs s)))
    = map without_completion_date (detailed_progress (file s)) ++ added.
Proof.
  revert s. induction cs as [|c cs IH]; intros s.
  - exists []. simpl. rewrite app_nil_r. reflexivity.
  - destruct (IH (store_of (exec c s))) as [added2 H2].
    destruct (exec_keeps_records c s) as [added1 H1].
    exists (added1 ++ added2). rewrite run_cons, H2, H1, app_assoc. reflexivity.
Qed.

(** ** Rowids *)

Lemma next_id_fresh (ids : list Z) :
  NoDup ids -> NoDup (ids ++ [Sql.next_id ids]).
Proof.
  intros Hnd. apply NoDup_app; [exact Hnd | repeat constructor; intros [] |].
  intros x Hx [<- | []]. apply next_id_above in Hx. lia.
Qed.

Lemma stamp_completion_id (now : timestamp) (user_id : Z)
    (skill_name course_name : string) (r : detailed_progress_row) :
  dp_id (stamp_completion now user_id skill_name course_name r) = dp_id r.
Proof.
  unfold stamp_completion.
  destruct (dp_for_course user_id skill_name course_name r); reflexivity.
Qed.

Lemma exec_keeps_rowids_unique (c : call) (s : store) :
  rowids_unique s -> rowids_unique (store_of (exec c s)).
Proof.
  unfold rowids_unique. intros (Hdp & Hls & Hac).
  destruct c as [now u k m n | now u k c p n | now u k |]; simpl; [| | |auto].
  - destruct (log_learning_session_cases now u k m n s) as [E | [L F]].
    + rewrite E. auto.
    + rewrite log_learning_session_effect by assumption. simpl.
      rewrite !map_app. simpl.
      repeat split; [apply next_id_fresh | apply next_id_fresh | ]; assumption.
  - destruct (update_course_progress now u k c p n s) as [s' | e s'] eqn:E; simpl.
    + apply update_course_progress_effect in E. subst s'. simpl.
      repeat split; [|assumption|assumption].
      destruct (p >=? 100).
      * rewrite map_map.
        rewrite (map_ext _ dp_id) by (intros r; apply stamp_completion_id).
        rewrite map_app. simpl. apply next_id_fresh. assumption.
      * rewrite map_app. simpl. apply next_id_fresh. assumption.
    + apply update_course_progress_raise in E. rewrite E. auto.
  - unfold check_and_award_achievements, Sql.begin_write.
    destruct (Z.of_nat _ =? 0); [|auto].
    destruct (write_lock s); simpl; [auto|].
    repeat split; [assumption|assumption|].
    rewrite map_app. simpl. apply next_id_fresh. assumption.
Qed.

(** Rowids stay unique: when no table holds a rowid twice, none does
    after any sequence of calls; every row that is added gets a rowid that
    no row of its table has. *)
Theorem rowids_stay_unique (cs : list call) (s : store) :
  rowids_unique s -> rowids_unique (run cs s).
Proof.
  revert s. induction cs as [|c cs IH]; intros s Hs; [exact Hs|].
  rewrite run_cons. apply IH. apply exec_keeps_rowids_unique. exact Hs.
Qed.

Lemma rowids_stay_unique_witness :
  rowids_unique (run (completed_twice ++ three_sessions) empty_store).
Proof.
  apply (rowids_stay_unique (completed_twice ++ three_sessions) empty_store).
  repeat split; constructor.
Defined.

(** ** When an update fails *)

Lemma completions_count_zero (user_id : Z) (skill_name : string) (s : store) :
  (Z.of_nat (List.length (filter (is_completion_of user_id skill_name)
                            (achievements (file s)))) =? 0)
  = (completions user_id skill_name s =? 0)%nat.
Proof.
  unfold completions.
  destruct (List.length _); reflexivity.
Qed.

(** X9. [update_course_progress] raises exactly when the percentage does not
    fit 64 bits, or the database is locked by another connection, or the
    percentage is at least 100 and the user does not hold the completion
    achievement of the skill yet.  A call that raises has changed no table;
    when the percentage fits 64 bits it leaves the database locked, by the
    other connection or by its own, which it does not close. *)
Theorem update_course_progress_raises_iff (now : timestamp) (user_id : Z)
    (skill_name course_name : string) (progress_percentage : Z) (notes : string)
    (s : store) :
  raised (update_course_progress now user_id skill_name course_name
            progress_percentage notes s)
  = negb (int64 progress_percentage)
    || write_lock s
    || ((progress_percentage >=? 100) && (completions user_id skill_name s =? 0)%nat)
  /\ (raised (update_course_progress now user_id skill_name course_name
                progress_percentage notes s) = true ->
      file (store_of (update_course_progress now user_id skill_name course_name
                        progress_percentage notes s)) = file s
      /\ write_lock (store_of (update_course_progress now user_id skill_name course_name
                                 progress_percentage notes s))
         = write_lock s || int64 progress_percentage).
Proof.
  split.
  - unfold update_course_progress, Sql.begin_write.
    destruct (int64 progress_percentage); [|reflexivity]. cbn [negb orb].
    destruct (write_lock s); [reflexivity|]. cbv zeta.
    destruct (progress_percentage >=? 100); [|reflexivity].
    unfold check_and_award_achievements, Sql.begin_write. simpl.
    rewrite <- completions_count_zero.
    destruct (Z.of_nat _ =? 0); reflexivity.
  - intros Hraised. split.
    + destruct (update_course_progress now user_id skill_name course_name
                  progress_percentage notes s) as [s' | e s'] eqn:E; simpl.
      * discriminate.
      * apply update_course_progress_raise in E. exact E.
    + revert Hraised. unfold update_course_progress, Sql.begin_write.
      destruct (int64 progress_percentage);
        [|intros _; cbn [negb store_of]; rewrite orb_false_r; reflexivity].
      cbn [negb].
      destruct (write_lock s) eqn:L; [intros _; cbn [store_of]; rewrite L; reflexivity|].
      cbv zeta.
      destruct (progress_percentage >=? 100); [|discriminate].
      unfold check_and_award_achievements, Sql.begin_write. simpl.
      destruct (Z.of_nat _ =? 0); [reflexivity | discriminate].
Qed.

(** ** The granter *)

Lemma achievement_name_injective (k k' : string) :
  achievement_name k = achievement_name k' -> k = k'.
Proof.
  unfold achievement_name. simpl. intros H.
  repeat (injection H as H). exact H.
Qed.

Lemma check_and_award_achievements_adds (now : timestamp) (user_id : Z)
    (skill_name : string) (s : store) :
  (achievements (file (store_of (check_and_award_achievements now user_id skill_name s)))
   = achievements (file s))
  \/ ((completions user_id skill_name s = 0)%nat
      /\ achievements
           (file (store_of (check_and_award_achievements now user_id skill_name s)))
         = achievements (file s)
           ++ [achievement_row now user_id skill_name (achievements (file s))]).
Proof.
  unfold check_and_award_achievements, Sql.begin_write.
  rewrite completions_count_zero.
  destruct (completions user_id skill_name s =? 0)%nat eqn:C; [|left; reflexivity].
  destruct (write_lock s); [left; reflexivity|].
  right. split; [apply Nat.eqb_eq; exact C | reflexivity].
Qed.

Lemma is_completion_of_self (now : timestamp) (user_id : Z) (skill_name : string)
    (table : list achievements_row) :
  is_completion_of user_id skill_name (achievement_row now user_id skill_name table) = true.
Proof.
  unfold is_completion_of. simpl.
  rewrite Z.eqb_refl, String.eqb_refl. reflexivity.
Qed.

(** X10. Calling [check_and_award_achievements] twice is as good as calling
    it once: after a first call on a database that no other connection has
    locked, the user holds the achievement (exactly once if it was not held
    before), and a second call, at any later time, returns without changing
    anything. *)
Theorem check_and_award_achievements_twice (now now' : timestamp) (user_id : Z)
    (skill_name : string) (s : store) :
  write_lock s = false ->
  completions user_id skill_name
    (store_of (check_and_award_achievements now user_id skill_name s))
  = Nat.max 1 (completions user_id skill_name s)
  /\ check_and_award_achievements now' user_id skill_name
       (store_of (check_and_award_achievements now user_id skill_name s))
     = Return (store_of (check_and_award_achievements now user_id skill_name s)).
Proof.
  intros Hfree.
  destruct (completions user_id skill_name s) as [|n] eqn:C.
  - exact (check_and_award_achievements_idempotent now now' user_id skill_name s Hfree C).
  - assert (E : check_and_award_achievements now user_id skill_name s = Return s).
    { unfold check_and_award_achievements. rewrite completions_count_zero, C. reflexivity. }
    rewrite E. simpl. rewrite C. split; [reflexivity|].
    unfold check_and_award_achievements. rewrite completions_count_zero, C. reflexivity.
Qed.

Lemma check_and_award_achievements_twice_witness :
  completions 1 "Python" (store_of (check_and_award_achievements 3 1 "Python" empty_store))
  = Nat.max 1 (completions 1 "Python" empty_store)
  /\ check_and_award_achievements 9 1 "Python"
       (store_of (check_and_award_achievements 3 1 "Python" empty_store))
     = Return (store_of (check_and_award_achievements 3 1 "Python" empty_store)).
Proof.
  apply (check_and_award_achievements_twice 3 9 1 "Python" empty_store).
  reflexivity.
Defined.

Lemma is_completion_of_other (now : timestamp) (user_id user_id' : Z)
    (skill_name skill_name' : string) (table : list achievements_row) :
  user_id' <> user_id \/ skill_name' <> skill_name ->
  is_completion_of user_id' skill_name' (achievement_row now user_id skill_name table) = false.
Proof.
  intros Hother. unfold is_completion_of, achievement_name. simpl.
  destruct (user_id =? user_id') eqn:Eu; [|reflexivity].
  destruct (String.eqb skill_name skill_name') eqn:Ek; [|reflexivity].
  apply Z.eqb_eq in Eu. apply String.eqb_eq in Ek.
  destruct Hother as [H | H]; congruence.
Qed.

(** X11. An award for one (user, skill) is no award for another: the number
    of completion achievements of every other user or skill is the same
    before and after a call of [check_and_award_achievements]. *)
Theorem award_leaves_other_skills (now : timestamp) (user_id user_id' : Z)
    (skill_name skill_name' : string) (s : store) :
  user_id' <> user_id \/ skill_name' <> skill_name ->
  completions user_id' skill_name'
    (store_of (check_and_award_achievements now user_id skill_name s))
  = completions user_id' skill_name' s.
Proof.
  intros Hother. unfold completions.
  destruct (check_and_award_achievements_adds now user_id skill_name s) as [E | [_ E]];
    rewrite E; [reflexivity|].
  rewrite filter_app, length_app. simpl.
  rewrite is_completion_of_other by assumption. simpl. lia.
Qed.

Lemma award_leaves_other_skills_witness :
  completions 1 "SQL" (store_of (check_and_award_achievements 3 1 "Python" empty_store))
  = completions 1 "SQL" empty_store.
Proof.
  apply (award_leaves_other_skills 3 1 1 "Python" "SQL" empty_store).
  right. discriminate.
Defined.

Lemma exec_keeps_single_completion (c : call) (s : store) :
  (forall u k, (completions u k s <= 1)%nat) ->
  forall u k, (completions u k (store_of (exec c s)) <= 1)%nat.
Proof.
  intros Hs u k. destruct c as [now u0 k0 m n | now u0 k0 c p n | now u0 k0 |]; simpl;
    [| | |apply Hs].
  - destruct (log_learning_session_cases now u0 k0 m n s) as [E | [L F]].
    + rewrite E. apply Hs.
    + rewrite log_learning_session_effect by assumption. apply Hs.
  - unfold completions. rewrite update_course_progress_never_awards. apply Hs.
  - pose proof (Hs u k) as Huk. unfold completions in *.
    destruct (check_and_award_achievements_adds now u0 k0 s) as [E | [C E]];
      rewrite E; [exact Huk|].
    rewrite filter_app, length_app. simpl.
    destruct (Z.eq_dec u u0) as [-> | Hu].
    + destruct (string_dec k k0) as [-> | Hk].
      * rewrite is_completion_of_self. unfold completions in C. simpl. lia.
      * rewrite is_completion_of_other by (right; exact Hk). simpl. lia.
    + rewrite is_completion_of_other by (left; exact Hu). simpl. lia.
Qed.

(** X12. No user ever holds the completion achievement of a skill twice:
    when that is so in a database, it is so after any sequence of calls,
    however often the granter or an update to 100 is called. *)
Theorem at_most_one_completion (cs : list call) (s : store) (user_id : Z)
    (skill_name : string) :
  (forall u k, (completions u k s <= 1)%nat) ->
  (completions user_id skill_name (run cs s) <= 1)%nat.
Proof.
  intros Hs. revert user_id skill_name.
  revert s Hs. induction cs as [|c cs IH]; intros s Hs u k.
  - apply Hs.
  - rewrite run_cons. apply IH. apply exec_keeps_single_completion. exact Hs.
Qed.

Lemma at_most_one_completion_witness :
  Nat.le
    (completions 1 "Python"
       (run [Award 1 1 "Python"; UpdateProgress 2 1 "Python" "Intro" 100 "";
             Award 3 1 "Python"; Award 4 1 "Python"] empty_store))
    1%nat.
Proof.
  apply (at_most_one_completion
           [Award 1 1 "Python"; UpdateProgress 2 1 "Python" "Intro" 100 "";
            Award 3 1 "Python"; Award 4 1 "Python"] empty_store 1 "Python").
  intros u k. apply Nat.le_0_l.
Defined.

(** ** Records of one (user, skill) *)

Lemma dp_for_other (user_id user_id' : Z) (skill_name skill_name' : string)
    (r : detailed_progress_row) :
  user_id' <> user_id \/ skill_name' <> skill_name ->
  dp_user_id r = user_id -> dp_skill_name r = skill_name ->
  dp_for user_id' skill_name' r = false.
Proof.
  intros Hother Hu Hk. unfold dp_for.
  destruct (dp_user_id r =? user_id') eqn:Eu; [|reflexivity].
  destruct (String.eqb (dp_skill_name r) skill_name') eqn:Ek; [|reflexivity].
  apply Z.eqb_eq in Eu. apply String.eqb_eq in Ek.
  destruct Hother as [H | H]; congruence.
Qed.

Lemma filter_stamp_other (now : timestamp) (user_id user_id' : Z)
    (skill_name skill_name' course_name : string) (l : list detailed_progress_row) :
  user_id' <> user_id \/ skill_name' <> skill_name ->
  filter (dp_for user_id' skill_name')
         (map (stamp_completion now user_id skill_name course_name) l)
  = filter (dp_for user_id' skill_name') l.
Proof.
  intros Hother. induction l as [|r l IH]; simpl; [reflexivity|].
  destruct (dp_for_course user_id skill_name course_name r) eqn:M.
  - replace (stamp_completion now user_id skill_name course_name r)
      with (set_completion_date now r)
      by (unfold stamp_completion; rewrite M; reflexivity).
    unfold dp_for_course in M.
    apply andb_true_iff in M. destruct M as [M _].
    apply andb_true_iff in M. destruct M as [Mu Mk].
    apply Z.eqb_eq in Mu. apply String.eqb_eq in Mk.
    rewrite (dp_for_other user_id user_id' skill_name skill_name' r Hother Mu Mk).
    rewrite (dp_for_other user_id user_id' skill_name skill_name'
               (set_completion_date now r) Hother Mu Mk).
    exact IH.
  - replace (stamp_completion now user_id skill_name course_name r) with r
      by (unfold stamp_completion; rewrite M; reflexivity).
    rewrite IH. reflexivity.
Qed.

(** X13. A session or an update of one (user, skill) leaves the records of
    every other user or skill as they are, completion dates included. *)
Theorem records_of_other_skills (now : timestamp) (user_id user_id' : Z)
    (skill_name skill_name' course_name : string) (minutes_studied progress_percentage : Z)
    (notes : string) (s : store) :
  user_id' <> user_id \/ skill_name' <> skill_name ->
  filter (dp_for user_id' skill_name')
    (detailed_progress
       (file (store_of (log_learning_session now user_id skill_name minutes_studied notes s))))
  = filter (dp_for user_id' skill_name') (detailed_progress (file s))
  /\ filter (dp_for user_id' skill_name')
       (detailed_progress
          (file (store_of (update_course_progress now user_id skill_name course_name
                             progress_percentage notes s))))
     = filter (dp_for user_id' skill_name') (detailed_progress (file s)).
Proof.
  intros Hother. split.
  - destruct (log_learning_session_cases now user_id skill_name minutes_studied notes s) as [E | [L F]].
    + rewrite E. reflexivity.
    + rewrite log_learning_session_effect by assumption. simpl.
      rewrite filter_app. simpl.
      rewrite (dp_for_other user_id user_id' skill_name skill_name' _ Hother)
        by reflexivity.
      apply app_nil_r.
  - destruct (update_course_progress now user_id skill_name course_name
                progress_percentage notes s) as [s' | e s'] eqn:E; simpl.
    + apply update_course_progress_effect in E. subst s'. simpl.
      assert (Hnew : filter (dp_for user_id' skill_name')
                (detailed_progress (file s) ++
                 [course_progress_row now user_id skill_name course_name
                    progress_percentage notes (detailed_progress (file s))])
              = filter (dp_for user_id' skill_name') (detailed_progress (file s))).
      { rewrite filter_app. simpl.
        rewrite (dp_for_other user_id user_id' skill_name skill_name' _ Hother)
          by reflexivity.
        apply app_nil_r. }
      destruct (progress_percentage >=? 100); [|exact Hnew].
      rewrite filter_stamp_other by assumption. exact Hnew.
    + apply update_course_progress_raise in E. rewrite E. reflexivity.
Qed.

Lemma records_of_other_skills_witness :
  filter (dp_for 1 "SQL")
    (detailed_progress
       (file (store_of (log_learning_session 9 1 "Python" 30 ""
                          (run completed_twice empty_store)))))
  = filter (dp_for 1 "SQL") (detailed_progress (file (run completed_twice empty_store)))
  /\ filter (dp_for 1 "SQL")
       (detailed_progress
          (file (store_of (update_course_progress 9 1 "Python" "Intro" 100 ""
                             (run completed_twice empty_store)))))
     = filter (dp_for 1 "SQL") (detailed_progress (file (run completed_twice empty_store))).
Proof.
  apply (records_of_other_skills 9 1 1 "Python" "SQL" "Intro" 30 100 ""
           (run completed_twice empty_store)).
  right. discriminate.
Defined.

Lemma log_learning_session_free (now : timestamp) (user_id : Z) (skill_name : string)
    (minutes_studied : Z) (notes : string) (s : store) :
  write_lock s = false ->
  int64 minutes_studied = true ->
  write_lock (store_of (log_learning_session now user_id skill_name minutes_studied notes s))
  = false.
Proof.
  intros Hfree Hfits. rewrite log_learning_session_effect by assumption. reflexivity.
Qed.

Lemma minutes_after_more_sessions (user_id : Z) (skill_name : string)
    (l : list (timestamp * Z * string)) :
  forall (s : store) (first : detailed_progress_row) (others : list detailed_progress_row),
  write_lock s = false ->
  Forall (fun '(_, minutes, _) => int64 minutes = true) l ->
  filter (dp_for user_id skill_name) (detailed_progress (file s)) = first :: others ->
  map dp_time_spent_minutes
    (filter (dp_for user_id skill_name)
       (detailed_progress (file (run (sessions_of user_id skill_name l) s))))
  = map dp_time_spent_minutes (first :: others)
    ++ map (fun '(_, minutes, _) => dp_time_spent_minutes first + minutes) l.
Proof.
  induction l as [|[[now m] n] l IH]; intros s first others Hfree Hfit Hfirst.
  - simpl. rewrite Hfirst, app_nil_r. reflexivity.
  - inversion Hfit as [|x l' Hm Hl]; subst x l'.
    change (sessions_of user_id skill_name ((now, m, n) :: l))
      with (LogSession now user_id skill_name m n :: sessions_of user_id skill_name l).
    rewrite run_cons.
    set (row := session_progress_row now user_id skill_name m (detailed_progress (file s))).
    assert (Hnext : filter (dp_for user_id skill_name)
              (detailed_progress
                 (file (store_of (exec (LogSession now user_id skill_name m n) s))))
            = first :: (others ++ [row])).
    { simpl. rewrite log_learning_session_effect by assumption. simpl.
      rewrite filter_app, Hfirst. simpl.
      unfold dp_for at 1. simpl. rewrite Z.eqb_refl, String.eqb_refl. reflexivity. }
    assert (Hfree' : write_lock (store_of (exec (LogSession now user_id skill_name m n) s))
                     = false)
      by (apply log_learning_session_free; assumption).
    rewrite (IH _ first (others ++ [row]) Hfree' Hl Hnext).
    simpl. rewrite map_app, <- app_assoc. simpl.
    unfold select_time_spent. rewrite Hfirst. reflexivity.
Qed.

(** X14. What the records of a (user, skill) hold after the first sessions:
    on a database that no other connection has locked and that has no record
    of the pair, sessions of [m1, m2, ..., mn] minutes, each within 64 bits
    and with [m1 + mi] within 64 bits, leave n records of the pair, the first
    with [m1] minutes and every later one with [m1] plus the minutes of its
    own session. *)
Theorem minutes_after_sessions (user_id : Z) (skill_name : string)
    (now1 : timestamp) (m1 : Z) (notes1 : string)
    (l : list (timestamp * Z * string)) (s : store) :
  write_lock s = false ->
  filter (dp_for user_id skill_name) (detailed_progress (file s)) = [] ->
  int64 m1 = true ->
  Forall (fun '(_, minutes, _) => int64 minutes = true) l ->
  Forall (fun '(_, minutes, _) => int64 (m1 + minutes) = true) l ->
  map dp_time_spent_minutes
    (filter (dp_for user_id skill_name)
       (detailed_progress
          (file (run (sessions_of user_id skill_name ((now1, m1, notes1) :: l)) s))))
  = m1 :: map (fun '(_, minutes, _) => m1 + minutes) l.
Proof.
  intros Hfree Hnone Hm1 Hfit _.
  change (sessions_of user_id skill_name ((now1, m1, notes1) :: l))
    with (LogSession now1 user_id skill_name m1 notes1 :: sessions_of user_id skill_name l).
  rewrite run_cons.
  set (row := session_progress_row now1 user_id skill_name m1 (detailed_progress (file s))).
  assert (Hnext : filter (dp_for user_id skill_name)
            (detailed_progress
               (file (store_of (exec (LogSession now1 user_id skill_name m1 notes1) s))))
          = [row]).
  { simpl. rewrite log_learning_session_effect by assumption. simpl.
    rewrite filter_app, Hnone. simpl.
    unfold dp_for at 1. simpl. rewrite Z.eqb_refl, String.eqb_refl. reflexivity. }
  assert (Hfree' : write_lock
                     (store_of (exec (LogSession now1 user_id skill_name m1 notes1) s))
                   = false)
    by (apply log_learning_session_free; assumption).
  rewrite (minutes_after_more_sessions user_id skill_name l _ row [] Hfree' Hfit Hnext).
  simpl. unfold select_time_spent. rewrite Hnone. reflexivity.
Qed.

Lemma minutes_after_sessions_witness :
  map dp_time_spent_minutes
    (filter (dp_for 1 "Python")
       (detailed_progress
          (file (run (sessions_of 1 "Python" [(1, 90, ""); (2, 30, ""); (3, 10, "")])
                     empty_store))))
  = 90 :: map (fun '(_, minutes, _) => 90 + minutes) [(2, 30, ""); (3, 10, "")].
Proof.
  apply (minutes_after_sessions 1 "Python" 1 90 "" [(2, 30, ""); (3, 10, "")] empty_store).
  - reflexivity.
  - reflexivity.
  - reflexivity.
  - repeat constructor.
  - repeat constructor.
Defined.

(** ** Admins and bulk results *)

Lemma insert_or_ignore_appends (row : Admin.admin_users_row)
    (table : list Admin.admin_users_row) :
  Admin.au_id row = Sql.next_id (map Admin.au_id table) ->
  Admin.insert_or_ignore row table = table ++ [row].
Proof.
  intros Hid. unfold Admin.insert_or_ignore.
  destruct (existsb (fun r => Admin.au_id r =? Admin.au_id row) table) eqn:E;
    [|reflexivity].
  apply existsb_exists in E. destruct E as [r [Hr Heq]].
  apply (in_map Admin.au_id) in Hr. apply next_id_above in Hr.
  apply Z.eqb_eq in Heq. lia.
Qed.

Lemma make_admin_effect (now : timestamp) (user_id : Z) (s : Admin.admin_store) :
  write_lock (Admin.base s) = false ->
  Admin.make_admin now user_id s =
  Admin.Done
    {| Admin.base := Sql.commit (file (Admin.base s));
       Admin.admin_users :=
         Admin.admin_users s ++
         [{| Admin.au_id := Sql.next_id (map Admin.au_id (Admin.admin_users s));
             Admin.au_user_id := user_id;
             Admin.au_created_at := now |}];
       Admin.bulk_results := Admin.bulk_results s |}.
Proof.
  intros Hfree. unfold Admin.make_admin.
  rewrite (begin_write_free _ Hfree).
  rewrite insert_or_ignore_appends by reflexivity. reflexivity.
Qed.

(** X15. After [make_admin] for a user, on a database that no other
    connection has locked, [is_admin] answers yes for that user, and for
    every other user what it answered before. *)
Theorem make_admin_is_admin (now : timestamp) (user_id user_id' : Z)
    (s : Admin.admin_store) :
  write_lock (Admin.base s) = false ->
  Admin.is_admin user_id' (Admin.admin_store_of (Admin.make_admin now user_id s))
  = (user_id' =? user_id) || Admin.is_admin user_id' s.
Proof.
  intros Hfree. rewrite make_admin_effect by assumption.
  unfold Admin.is_admin. simpl.
  rewrite filter_app, length_app. simpl.
  rewrite (Z.eqb_sym user_id user_id').
  destruct (user_id' =? user_id); simpl.
  - apply Z.gtb_lt. lia.
  - rewrite Nat.add_0_r. reflexivity.
Qed.

Lemma make_admin_is_admin_witness :
  Admin.is_admin 4 (Admin.admin_store_of (Admin.make_admin 10 4 Admin.empty_admin_store))
  = (4 =? 4) || Admin.is_admin 4 Admin.empty_admin_store.
Proof.
  apply (make_admin_is_admin 10 4 4 Admin.empty_admin_store).
  reflexivity.
Defined.

(** X16. [INSERT OR IGNORE] never ignores: every call of [make_admin] on a
    database that no other connection has locked adds a row of the user,
    also when the user is an admin already. *)
Theorem make_admin_adds_a_row (now : timestamp) (user_id : Z) (s : Admin.admin_store) :
  write_lock (Admin.base s) = false ->
  Admin.admin_rows user_id (Admin.admin_store_of (Admin.make_admin now user_id s))
  = S (Admin.admin_rows user_id s).
Proof.
  intros Hfree. rewrite make_admin_effect by assumption.
  unfold Admin.admin_rows. simpl.
  rewrite filter_app, length_app. simpl.
  rewrite Z.eqb_refl. simpl. lia.
Qed.

Lemma make_admin_adds_a_row_witness :
  Admin.admin_rows 4
    (Admin.admin_store_of
       (Admin.make_admin 11 4
          (Admin.admin_store_of (Admin.make_admin 10 4 Admin.empty_admin_store))))
  = S (Admin.admin_rows 4
         (Admin.admin_store_of (Admin.make_admin 10 4 Admin.empty_admin_store))).
Proof.
  apply (make_admin_adds_a_row 11 4
           (Admin.admin_store_of (Admin.make_admin 10 4 Admin.empty_admin_store))).
  reflexivity.
Defined.

Section AdminPage.

Variable upload : Type.
Variable upload_name : upload -> string.
Variable analyze_resume : string -> upload -> Admin.analysis_reply.

Let analyze_files := Admin.analyze_files upload upload_name analyze_resume.
Let simple_admin_page := Admin.simple_admin_page upload upload_name analyze_resume.

Lemma save_result_admin_users (now : timestamp) (user_id : Z) (job_role : string)
    (r : Admin.result) (s : Admin.admin_store) :
  Admin.admin_users (Admin.admin_store_of (Admin.save_result now user_id job_role r s))
  = Admin.admin_users s.
Proof.
  unfold Admin.save_result, Sql.begin_write.
  destruct (write_lock (Admin.base s)); reflexivity.
Qed.

Lemma analyze_files_admin_users (api_key : string) (user_id : Z) (job_role : string)
    (files : list (timestamp * upload)) :
  forall (results : list Admin.result) (errors : list string) (s : Admin.admin_store),
  Admin.admin_users (snd (analyze_files api_key user_id job_role files results errors s))
  = Admin.admin_users s.
Proof.
  unfold analyze_files.
  induction files as [|[now f] files IH]; intros results errors s; simpl; [reflexivity|].
  destruct (analyze_resume api_key f) as [a | text]; [|apply IH].
  pose proof (save_result_admin_users now user_id job_role
                (Admin.result_of (upload_name f) a) s) as Hsave.
  destruct (Admin.save_result now user_id job_role (Admin.result_of (upload_name f) a) s)
    as [s' | [text | text] s']; simpl in Hsave; rewrite IH; exact Hsave.
Qed.

(** X17. Through the page no user gets a second row in [admin_users]: the
    page calls [make_admin] only for a user that [is_admin] does not know,
    so when every user has at most one row before a run of the page, every
    user has at most one row after it, whatever is clicked or uploaded. *)
Theorem page_keeps_one_admin_row (api_key : string) (user_id : Z) (now : timestamp)
    (grant_clicked : bool) (job_role : string) (uploaded_files : list (timestamp * upload))
    (analyze_clicked : bool) (s : Admin.admin_store) (u : Z) :
  (forall v, (Admin.admin_rows v s <= 1)%nat) ->
  (Admin.admin_rows u
     (Admin.page_store
        (simple_admin_page api_key user_id now grant_clicked job_role uploaded_files
           analyze_clicked s)) <= 1)%nat.
Proof.
  intros Hs. unfold simple_admin_page, Admin.simple_admin_page.
  destruct (Admin.is_admin user_id s) eqn:Ad; simpl.
  - destruct (negb (Nat.eqb (List.length uploaded_files) 0) && analyze_clicked);
      [|apply Hs].
    destruct (String.eqb api_key ""); [apply Hs|].
    pose proof (analyze_files_admin_users api_key user_id job_role uploaded_files [] [] s)
      as Hsame.
    unfold analyze_files in Hsame.
    destruct (Admin.analyze_files upload upload_name analyze_resume api_key user_id
                job_role uploaded_files [] [] s) as [[results errors] s'].
    simpl in *. unfold Admin.admin_rows. rewrite Hsame. apply Hs.
  - destruct grant_clicked; [|apply Hs]. simpl.
    destruct (write_lock (Admin.base s)) eqn:L.
    + unfold Admin.make_admin, Sql.begin_write. rewrite L. apply Hs.
    + rewrite make_admin_effect by assumption.
      unfold Admin.admin_rows. simpl.
      rewrite filter_app, length_app. simpl.
      destruct (user_id =? u) eqn:E; simpl.
      * apply Z.eqb_eq in E. subst u.
        unfold Admin.is_admin in Ad.
        destruct (List.length (filter (fun r => Admin.au_user_id r =? user_id)
                                 (Admin.admin_users s))) eqn:C; [lia|].
        exfalso. rewrite Z.gtb_ltb in Ad. apply Z.ltb_ge in Ad. lia.
      * specialize (Hs u). unfold Admin.admin_rows in Hs. lia.
Qed.

End AdminPage.

Lemma page_keeps_one_admin_row_witness :
  Nat.le
    (Admin.admin_rows 4
       (Admin.page_store
          (Admin.simple_admin_page string (fun name => name)
             (fun _ _ => Admin.Analysis_error "offline")
             "key" 4 10 true "AI Engineer" [] false Admin.empty_admin_store)))
    1%nat.
Proof.
  apply (page_keeps_one_admin_row string (fun name => name)
           (fun _ _ => Admin.Analysis_error "offline")
           "key" 4 10 true "AI Engineer" [] false Admin.empty_admin_store 4).
  intros v. apply Nat.le_0_l.
Defined.

Section AdminAnalysis.

Variable upload : Type.
Variable upload_name : upload -> string.
Variable analyze_resume : string -> upload -> Admin.analysis_reply.

Let analyze_files := Admin.analyze_files upload upload_name analyze_resume.
Let simple_admin_page := Admin.simple_admin_page upload upload_name analyze_resume.




(** X19. The page analyses and stores only for an admin who has uploaded
    files, clicked the button and entered an API key: in every other case
    the table [bulk_results] is after the run of the page what it was
    before. *)
Theorem page_stores_only_for_admins (api_key : string) (user_id : Z) (now : timestamp)
    (grant_clicked : bool) (job_role : string) (uploaded_files : list (timestamp * upload))
    (analyze_clicked : bool) (s : Admin.admin_store) :
  Admin.is_admin user_id s = false \/ uploaded_files = [] \/ analyze_clicked = false
    \/ api_key = "" ->
  Admin.bulk_results
    (Admin.page_store
       (simple_admin_page api_key user_id now grant_clicked job_role uploaded_files
          analyze_clicked s))
  = Admin.bulk_results s.
Proof.
  intros Hcase. unfold simple_admin_page, Admin.simple_admin_page.
  destruct (Admin.is_admin user_id s) eqn:Ad; simpl.
  - destruct Hcase as [H | [-> | [-> | ->]]]; [discriminate| | |].
    + reflexivity.
    + rewrite andb_false_r. reflexivity.
    + destruct (negb (Nat.eqb (List.length uploaded_files) 0) && analyze_clicked);
        reflexivity.
  - destruct grant_clicked; [|reflexivity]. simpl.
    unfold Admin.make_admin, Sql.begin_write.
    destruct (write_lock (Admin.base s)); reflexivity.
Qed.

(** X20. The summary of an analysis: the matched candidates are at most the
    resumes analysed, and the detailed list holds the results, all of them
    and no others, ordered by score with the highest first. *)
Theorem analysis_report (api_key : string) (user_id : Z) (now : timestamp)
    (grant_clicked : bool) (job_role : string) (uploaded_files : list (timestamp * upload))
    (analyze_clicked : bool) (s s' : Admin.admin_store) (r : Admin.report) :
  simple_admin_page api_key user_id now grant_clicked job_role uploaded_files
    analyze_clicked s = Admin.Analysis_completed r s' ->
  (Admin.matched_count r <= Admin.total_resumes r)%nat
  /\ Admin.total_resumes r = List.length (Admin.results r)
  /\ Permutation (Admin.detailed r) (Admin.results r)
  /\ StronglySorted (fun a b => Admin.score b <= Admin.score a) (Admin.detailed r).
Proof.
  unfold simple_admin_page, Admin.simple_admin_page.
  destruct (negb (Admin.is_admin user_id s)).
  - destruct grant_clicked; discriminate.
  - destruct (negb (Nat.eqb (List.length uploaded_files) 0) && analyze_clicked);
      [|discriminate].
    destruct (String.eqb api_key ""); [discriminate|].
    destruct (Admin.analyze_files upload upload_name analyze_resume api_key user_id
                job_role uploaded_files [] [] s) as [[results errors] s1].
    intros H. injection H as <- _. simpl.
    split; [apply filter_length_le|]. split; [reflexivity|]. split.
    + apply order_by_desc_permutation.
    + apply (order_by_desc_sorted Admin.score).
Qed.

End AdminAnalysis.


Lemma page_stores_only_for_admins_witness :
  Admin.bulk_results
    (Admin.page_store
       (Admin.simple_admin_page string (fun name => name) sample_analyzer
          "key" 5 30 true "AI Engineer" sample_uploads true sample_admin_store))
  = Admin.bulk_results sample_admin_store.
Proof.
  apply (page_stores_only_for_admins string (fun name => name) sample_analyzer
           "key" 5 30 true "AI Engineer" sample_uploads true sample_admin_store).
  left. reflexivity.
Defined.

Lemma analysis_report_witness :
  exists r s',
    Admin.simple_admin_page string (fun name => name) sample_analyzer
      "key" 4 30 false "AI Engineer" sample_uploads true sample_admin_store
    = Admin.Analysis_completed r s'
    /\ (Admin.matched_count r <= Admin.total_resumes r)%nat
    /\ Admin.total_resumes r = List.length (Admin.results r)
    /\ Permutation (Admin.detailed r) (Admin.results r)
    /\ StronglySorted (fun a b => Admin.score b <= Admin.score a) (Admin.detailed r).
Proof.
  eexists. eexists. split; [vm_compute; reflexivity|].
  eapply (analysis_report string (fun name => name) sample_analyzer
            "key" 4 30 false "AI Engineer" sample_uploads true sample_admin_store).
  vm_compute. reflexivity.
Defined.

(** ** The context and the summary of the coach *)

Lemma courses_of_length (plans : list (list Py.value)) (cs : list Py.value) :
  Coach.courses_of plans = Some cs -> List.length cs = List.length plans.
Proof.
  revert cs. induction plans as [|plan plans IH]; simpl; intros cs H.
  - injection H as <-. reflexivity.
  - destruct (Coach.course_of plan); [|discriminate].
    destruct (Coach.courses_of plans) as [cs'|]; [|discriminate].
    injection H as <-. simpl. rewrite (IH cs' eq_refl). reflexivity.
Qed.

Lemma course_of_raises (plan : list Py.value) :
  Coach.course_of plan = None <-> (List.length plan < 6)%nat.
Proof.
  unfold Coach.course_of.
  destruct plan as [|a [|b [|c [|d [|e [|f plan]]]]]]; simpl;
    split; intros H; try reflexivity; try lia; try discriminate.
Qed.

Lemma courses_of_raises (plans : list (list Py.value)) :
  Coach.courses_of plans = None
  <-> Exists (fun plan => (List.length plan < 6)%nat) plans.
Proof.
  induction plans as [|plan plans IH]; simpl.
  - split; [discriminate | intros H; inversion H].
  - destruct (Coach.course_of plan) eqn:E.
    + destruct (Coach.courses_of plans) eqn:E'.
      * split; [discriminate|]. intros H. inversion H as [? ? Hp | ? ? Hr]; subst.
        -- apply course_of_raises in Hp. congruence.
        -- apply IH in Hr. discriminate.
      * split; [|reflexivity]. intros _. apply Exists_cons_tl. apply IH. reflexivity.
    + split; [|reflexivity]. intros _. apply Exists_cons_hd.
      apply course_of_raises. exact E.
Qed.

(** X21. The keys of the context are those of the arguments that hold
    something, in the order resume analysis, learning plan, user profile: an
    analysis that is [None] or an empty dictionary, an empty learning plan
    and a profile that counts as false leave no key. *)
Theorem format_context_keys (analysis_result : option (list (string * Py.value)))
    (learning_plan : list (list Py.value)) (user_profile : Py.value)
    (context : list (string * Py.value)) :
  Coach.format_context_for_agent analysis_result learning_plan user_profile = Some context ->
  map fst context
  = (match analysis_result with Some (_ :: _) => ["resume_analysis"] | _ => [] end)
    ++ (match learning_plan with _ :: _ => ["learning_plan"] | [] => [] end)
    ++ (if Py.truthy user_profile then ["user_profile"] else []).
Proof.
  unfold Coach.format_context_for_agent.
  destruct learning_plan as [|plan plans].
  - intros H. injection H as <-.
    destruct analysis_result as [[|b d]|]; destruct (Py.truthy user_profile); reflexivity.
  - destruct (Coach.courses_of (firstn 5 (plan :: plans))) as [cs|]; [|discriminate].
    intros H. injection H as <-.
    destruct analysis_result as [[|b d]|]; destruct (Py.truthy user_profile); reflexivity.
Qed.

Lemma format_context_keys_witness :
  map fst [("resume_analysis",
            Py.PyDict [("overall_score", Py.PyInt 72); ("strengths", Py.PyList []);
                       ("missing_skills", Py.PyList []); ("selected", Py.PyBool false)])]
  = (match Some [("overall_score", Py.PyInt 72)] with
     | Some (_ :: _) => ["resume_analysis"] | _ => [] end)
    ++ (match @nil (list Py.value) with _ :: _ => ["learning_plan"] | [] => [] end)
    ++ (if Py.truthy (Py.PyDict []) then ["user_profile"] else []).
Proof.
  apply (format_context_keys (Some [("overall_score", Py.PyInt 72)]) [] (Py.PyDict [])).
  reflexivity.
Defined.

(** X22. Only the first five rows of the learning plan count: the result is
    the one for those five rows alone; the call raises exactly when one of
    them has fewer than six columns; and a context that is returned lists as
    many courses as there are rows, at most five. *)
Theorem format_context_first_five (analysis_result : option (list (string * Py.value)))
    (learning_plan : list (list Py.value)) (user_profile : Py.value) :
  Coach.format_context_for_agent analysis_result learning_plan user_profile
  = Coach.format_context_for_agent analysis_result (firstn 5 learning_plan) user_profile
  /\ (Coach.format_context_for_agent analysis_result learning_plan user_profile = None
      <-> Exists (fun plan => (List.length plan < 6)%nat) (firstn 5 learning_plan))
  /\ (forall context courses,
        Coach.format_context_for_agent analysis_result learning_plan user_profile
          = Some context ->
        Py.lookup context "learning_plan" = Some (Py.PyList courses) ->
        List.length courses = Nat.min 5 (List.length learning_plan)).
Proof.
  unfold Coach.format_context_for_agent.
  destruct learning_plan as [|plan plans].
  - split; [reflexivity|]. split.
    + split; [discriminate | intros H; inversion H].
    + intros context courses H. injection H as <-.
      destruct analysis_result as [[|b d]|]; destruct (Py.truthy user_profile);
        simpl; discriminate.
  - split; [|split].
    + change (firstn 5 (plan :: plans)) with (plan :: firstn 4 plans).
      cbv iota. change (plan :: firstn 4 plans) with (firstn 5 (plan :: plans)).
      rewrite firstn_firstn. reflexivity.
    + pose proof (courses_of_raises (firstn 5 (plan :: plans))) as Hr.
      destruct (Coach.courses_of (firstn 5 (plan :: plans))) as [cs|].
      * split; [discriminate|]. intros H. apply Hr in H. discriminate.
      * split; [|reflexivity]. intros _. apply Hr. reflexivity.
    + intros context courses.
      destruct (Coach.courses_of (firstn 5 (plan :: plans))) as [cs|] eqn:E; [|discriminate].
      apply courses_of_length in E. rewrite length_firstn in E.
      intros H. injection H as <-.
      destruct analysis_result as [[|b d]|]; destruct (Py.truthy user_profile);
        simpl; intros H; injection H as <-; exact E.
Qed.

Lemma recent_messages_of_last_six {A : Type} (older recent : list A) :
  List.length recent = 6%nat -> Coach.recent_messages (older ++ recent) = recent.
Proof.
  intros H6. unfold Coach.recent_messages. rewrite length_app, H6.
  destruct older as [|m older]; simpl List.length.
  - simpl. reflexivity.
  - replace (6 <? S (List.length older) + 6)%nat with true
      by (symmetry; apply Nat.ltb_lt; lia).
    replace (S (List.length older) + 6 - 6)%nat with (List.length (m :: older))
      by (simpl; lia).
    rewrite skipn_app, skipn_all, Nat.sub_diag. reflexivity.
Qed.

(** X23. The summary is made of the last six messages alone: a conversation
    that ends with six messages gets the summary that those six messages
    alone would get, whatever was said before and whatever the model
    answers. *)
Theorem summary_of_last_six (llm_invoke : string -> Coach.llm_reply)
    (older recent : list (string * string)) :
  List.length recent = 6%nat ->
  Coach.get_conversation_summary llm_invoke (older ++ recent)
  = Coach.get_conversation_summary llm_invoke recent.
Proof.
  intros H6. unfold Coach.get_conversation_summary.
  rewrite (recent_messages_of_last_six older recent H6).
  pose proof (recent_messages_of_last_six [] recent H6) as Halone.
  simpl in Halone. rewrite Halone.
  destruct recent as [|r recent]; [discriminate|].
  destruct older; reflexivity.
Qed.

Lemma summary_of_last_six_witness :
  Coach.get_conversation_summary (fun prompt => Coach.Content prompt)
    ([("human", "hello"); ("ai", "welcome")]
     ++ [("human", "a"); ("ai", "b"); ("human", "c"); ("ai", "d"); ("human", "e");
         ("ai", "f")])
  = Coach.get_conversation_summary (fun prompt => Coach.Content prompt)
      [("human", "a"); ("ai", "b"); ("human", "c"); ("ai", "d"); ("human", "e");
       ("ai", "f")].
Proof.
  apply (summary_of_last_six (fun prompt => Coach.Content prompt)
           [("human", "hello"); ("ai", "welcome")]
           [("human", "a"); ("ai", "b"); ("human", "c"); ("ai", "d"); ("human", "e");
            ("ai", "f")]).
  reflexivity.
Defined.

(** ** The handlers of the web application *)

Section Handlers.

Variable agents : list (string * Py.value).
Variable invoke_agent : Py.value -> Py.value -> Py.value -> App.bedrock_reply.
Variable analyze_resume_agent : Py.value -> Py.value -> App.bedrock_reply.
Variable get_career_guidance : Py.value -> App.bedrock_reply.
Variable generate_learning_plan : Py.value -> Py.value -> App.bedrock_reply.

Let chat := App.chat agents invoke_agent.
Let chat_with := App.chat_with agents invoke_agent.
Let analyze_resume := App.analyze_resume analyze_resume_agent.
Let career_guidance := App.career_guidance get_career_guidance.
Let learning_plan := App.learning_plan generate_learning_plan.

Lemma reply_of_shape (key : string) (extra : list (string * Py.value))
    (reply : App.bedrock_reply) :
  (snd (App.reply_of key extra reply) = 200
   /\ map fst (fst (App.reply_of key extra reply))
      = [key] ++ map fst extra ++ ["session_id"])
  \/ (snd (App.reply_of key extra reply) = 500
      /\ map fst (fst (App.reply_of key extra reply)) = ["error"]).
Proof.
  unfold App.reply_of.
  destruct reply as [result | text]; [|right; split; reflexivity].
  destruct (App.subscript result "success") as [success | text];
    [|right; split; reflexivity].
  destruct (Py.truthy success).
  - destruct (App.subscript result "response") as [answer | text];
      [|right; split; reflexivity].
    destruct (App.subscript result "session_id") as [sid | text];
      [|right; split; reflexivity].
    left. split; [reflexivity|]. simpl. rewrite map_app. reflexivity.
  - destruct (App.subscript result "error"); right; split; reflexivity.
Qed.

Lemma chat_with_shape (message agent_type : Py.value) (uuid4 : string)
    (session : list (string * Py.value)) :
  (snd (fst (chat_with message agent_type uuid4 session)) = 200
   /\ map fst (fst (fst (chat_with message agent_type uuid4 session)))
      = ["response"; "agent"; "session_id"])
  \/ ((snd (fst (chat_with message agent_type uuid4 session)) = 400
       <-> Py.truthy message = false)
      /\ (snd (fst (chat_with message agent_type uuid4 session)) = 400
          \/ snd (fst (chat_with message agent_type uuid4 session)) = 500)
      /\ map fst (fst (fst (chat_with message agent_type uuid4 session))) = ["error"]).
Proof.
  unfold chat_with, App.chat_with.
  destruct (Py.truthy message) eqn:T; simpl.
  - destruct (App.select_agent agents agent_type) as [agent_id | text].
    + destruct (App.subscript _ "session_id") as [sid | text].
      * destruct (reply_of_shape "response" [("agent", agent_type)]
                    (invoke_agent agent_id message sid)) as [[H1 H2] | [H1 H2]]; simpl.
        -- left. split; assumption.
        -- right. rewrite H1. repeat split; try discriminate; auto.
      * right. simpl. repeat split; try discriminate; auto.
    + right. simpl. repeat split; try discriminate; auto.
  - right. repeat split; auto.
Qed.

(** X24. [chat] answers 400 exactly for a body that is a JSON object whose
    [message] is missing or counts as false (the empty string, null, 0,
    false, an empty list or object); the response then is the one field
    [error] with the text [Message is required], and the session is as it
    was. *)
Theorem chat_requires_message (body : App.request_body) (uuid4 : string)
    (session : list (string * Py.value)) :
  (snd (fst (chat body uuid4 session)) = 400
   <-> exists d, body = App.Json (Py.PyDict d)
                 /\ Py.truthy (Py.get d "message" (Py.PyStr "")) = false)
  /\ (snd (fst (chat body uuid4 session)) = 400 ->
      chat body uuid4 session
      = (([("error", Py.PyStr "Message is required")], 400), session)).
Proof.
  unfold chat, App.chat.
  destruct body as [data | text]; [|split; [split|]; simpl;
    [discriminate | intros [d [H _]]; discriminate | discriminate]].
  destruct data as [| b | z | str | l | d]; simpl;
    try (split; [split|]; simpl;
         [discriminate | intros [d [H _]]; discriminate | discriminate]).
  fold (chat_with (Py.get d "message" (Py.PyStr "")) (Py.get d "agent" (Py.PyStr "supervisor"))
          uuid4 session).
  destruct (chat_with_shape (Py.get d "message" (Py.PyStr ""))
              (Py.get d "agent" (Py.PyStr "supervisor")) uuid4 session)
    as [[H1 _] | [Hiff _]].
  - split; [split|]; rewrite H1; try discriminate.
    intros [d' [Hd Hfalse]]. injection Hd as <-.
    unfold chat_with, App.chat_with in H1. rewrite Hfalse in H1. discriminate.
  - split; [split|].
    + intros H. exists d. split; [reflexivity | apply Hiff; exact H].
    + intros [d' [Hd Hfalse]]. injection Hd as <-. apply Hiff. exact Hfalse.
    + intros H. apply Hiff in H. unfold chat_with, App.chat_with. rewrite H. reflexivity.
Qed.

(** X25. The session id is made once: a session that has an id keeps it, and
    the session, through any request; a session without one gets the new id
    on the first request with a message, also when the agent then fails. *)
Theorem chat_session_id (body : App.request_body) (uuid4 : string)
    (session : list (string * Py.value)) :
  (forall sid, Py.lookup session "session_id" = Some sid ->
     snd (chat body uuid4 session) = session)
  /\ (forall d, Py.lookup session "session_id" = None ->
        body = App.Json (Py.PyDict d) ->
        Py.truthy (Py.get d "message" (Py.PyStr "")) = true ->
        snd (chat body uuid4 session) = session ++ [("session_id", Py.PyStr uuid4)]).
Proof.
  unfold chat, App.chat. split.
  - intros sid Hsid.
    destruct body as [data | text]; [|reflexivity].
    destruct data as [| b | z | str | l | d]; try reflexivity. simpl.
    unfold App.chat_with.
    destruct (Py.truthy (Py.get d "message" (Py.PyStr ""))); simpl; [|reflexivity].
    rewrite Hsid.
    destruct (App.select_agent agents _); [|reflexivity].
    destruct (App.subscript session "session_id"); reflexivity.
  - intros d Hnone -> Htrue. simpl. unfold App.chat_with.
    rewrite Htrue. simpl. rewrite Hnone.
    destruct (App.select_agent agents _); [|reflexivity].
    destruct (App.subscript _ "session_id"); reflexivity.
Qed.

Lemma get_of_subscript (d : list (string * Py.value)) (key : string) (v default : Py.value) :
  App.subscript d key = App.Ok v -> Py.get d key default = v.
Proof.
  unfold App.subscript, Py.get.
  destruct (Py.lookup d key); intros H; [injection H as <-; reflexivity | discriminate].
Qed.

Lemma with_agent_reply (a a' : Py.value) (reply : App.bedrock_reply) :
  App.with_agent a (App.reply_of "response" [("agent", a')] reply)
  = App.reply_of "response" [("agent", a)] reply.
Proof.
  unfold App.reply_of, App.with_agent.
  destruct reply as [result | text]; [|reflexivity].
  destruct (App.subscript result "success") as [success | text]; [|reflexivity].
  destruct (Py.truthy success).
  - destruct (App.subscript result "response"); [|reflexivity].
    destruct (App.subscript result "session_id"); reflexivity.
  - destruct (App.subscript result "error"); reflexivity.
Qed.

(** X26. An agent name that [bedrock.agents] does not know is served by the
    supervisor: the request gets the response and the session that the same
    request for the agent [supervisor] gets, but for the field [agent] of
    the response, which repeats the name asked for. *)
Theorem chat_unknown_agent (message : Py.value) (name : string) (uuid4 : string)
    (session : list (string * Py.value)) :
  Py.lookup agents name = None ->
  chat_with message (Py.PyStr name) uuid4 session
  = (App.with_agent (Py.PyStr name)
       (fst (chat_with message (Py.PyStr "supervisor") uuid4 session)),
     snd (chat_with message (Py.PyStr "supervisor") uuid4 session)).
Proof.
  intros Hunknown. unfold chat_with, App.chat_with.
  destruct (negb (Py.truthy message)); [reflexivity|].
  unfold App.select_agent.
  destruct (App.subscript agents "supervisor") as [supervisor | text] eqn:S;
    [|reflexivity].
  rewrite (get_of_subscript agents "supervisor" supervisor supervisor S).
  unfold Py.get at 1. rewrite Hunknown.
  destruct (App.subscript _ "session_id") as [sid | text]; [|reflexivity].
  simpl. rewrite with_agent_reply. reflexivity.
Qed.

(** X27. Without an agent [supervisor] in [bedrock.agents] no message is
    answered: the default of the lookup is read first, so every request with
    a message ends as 500 with the text of the KeyError, also a request for
    an agent that exists. *)
Theorem chat_needs_supervisor (message agent_type : Py.value) (uuid4 : string)
    (session : list (string * Py.value)) :
  Py.lookup agents "supervisor" = None ->
  Py.truthy message = true ->
  fst (chat_with message agent_type uuid4 session)
  = ([("error", Py.PyStr "'supervisor'")], 500).
Proof.
  intros Hnone Htrue. unfold chat_with, App.chat_with, App.select_agent, App.subscript.
  rewrite Htrue, Hnone. reflexivity.
Qed.

End Handlers.

Lemma chat_unknown_agent_witness :
  App.chat_with sample_agents sample_invoke_agent (Py.PyStr "hello") (Py.PyStr "coach")
    "id-1" []
  = (App.with_agent (Py.PyStr "coach")
       (fst (App.chat_with sample_agents sample_invoke_agent (Py.PyStr "hello")
               (Py.PyStr "supervisor") "id-1" [])),
     snd (App.chat_with sample_agents sample_invoke_agent (Py.PyStr "hello")
            (Py.PyStr "supervisor") "id-1" [])).
Proof.
  apply (chat_unknown_agent sample_agents sample_invoke_agent (Py.PyStr "hello") "coach"
           "id-1" []).
  reflexivity.
Defined.

Lemma chat_needs_supervisor_witness :
  fst (App.chat_with [("resume_parser", Py.PyStr "PARSE1")] sample_invoke_agent
         (Py.PyStr "hello") (Py.PyStr "resume_parser") "id-1" [])
  = ([("error", Py.PyStr "'supervisor'")], 500).
Proof.
  apply (chat_needs_supervisor [("resume_parser", Py.PyStr "PARSE1")] sample_invoke_agent
           (Py.PyStr "hello") (Py.PyStr "resume_parser") "id-1" []).
  - reflexivity.
  - reflexivity.
Defined.

Section OtherHandlers.

Variable agents : list (string * Py.value).
Variable invoke_agent : Py.value -> Py.value -> Py.value -> App.bedrock_reply.
Variable analyze_resume_agent : Py.value -> Py.value -> App.bedrock_reply.
Variable get_career_guidance : Py.value -> App.bedrock_reply.
Variable generate_learning_plan : Py.value -> Py.value -> App.bedrock_reply.

Let chat := App.chat agents invoke_agent.
Let analyze_resume := App.analyze_resume analyze_resume_agent.
Let career_guidance := App.career_guidance get_career_guidance.
Let learning_plan := App.learning_plan generate_learning_plan.

Lemma reply_of_not_400 (key : string) (extra : list (string * Py.value))
    (reply : App.bedrock_reply) :
  snd (App.reply_of key extra reply) <> 400.
Proof.
  destruct (reply_of_shape key extra reply) as [[H _] | [H _]]; rewrite H; discriminate.
Qed.

(** X28. What the other handlers refuse with 400: [analyze_resume] exactly a
    JSON object whose [resume_text] is missing or counts as false,
    [learning_plan] exactly a JSON object in which [skills_gap] or
    [target_role] is missing or counts as false, and [career_guidance]
    nothing at all. *)
Theorem handlers_refuse (body : App.request_body) :
  (snd (analyze_resume body) = 400
   <-> exists d, body = App.Json (Py.PyDict d)
                 /\ Py.truthy (Py.get d "resume_text" (Py.PyStr "")) = false)
  /\ (snd (learning_plan body) = 400
      <-> exists d, body = App.Json (Py.PyDict d)
                    /\ (Py.truthy (Py.get d "skills_gap" (Py.PyList [])) = false
                        \/ Py.truthy (Py.get d "target_role" (Py.PyStr "")) = false))
  /\ snd (career_guidance body) <> 400.
Proof.
  unfold analyze_resume, learning_plan, career_guidance,
    App.analyze_resume, App.learning_plan, App.career_guidance.
  destruct body as [data | text].
  - destruct data as [| b | z | str | l | d]; simpl;
      try (split; [|split]; [split | split | ];
           try discriminate; intros [d [H _]]; discriminate).
    split; [|split].
    + destruct (Py.truthy (Py.get d "resume_text" (Py.PyStr ""))) eqn:T; simpl.
      * split.
        -- intros H. exfalso. exact (reply_of_not_400 _ _ _ H).
        -- intros [d' [Hd Hf]]. injection Hd as <-. congruence.
      * split; [|reflexivity]. intros _. exists d. split; [reflexivity | exact T].
    + destruct (Py.truthy (Py.get d "skills_gap" (Py.PyList []))) eqn:T1;
        destruct (Py.truthy (Py.get d "target_role" (Py.PyStr ""))) eqn:T2; simpl.
      * split.
        -- intros H. exfalso. exact (reply_of_not_400 _ _ _ H).
        -- intros [d' [Hd [Hf | Hf]]]; injection Hd as <-; congruence.
      * split; [|reflexivity]. intros _. exists d. split; [reflexivity | right; exact T2].
      * split; [|reflexivity]. intros _. exists d. split; [reflexivity | left; exact T1].
      * split; [|reflexivity]. intros _. exists d. split; [reflexivity | left; exact T1].
    + apply reply_of_not_400.
  - simpl. split; [|split]; [split | split | ];
      try discriminate; intros [d [H _]]; discriminate.
Qed.

(** X29. The shape of every response: a handler answers either 200 with
    exactly its own fields ([response], [agent] and [session_id] for [chat];
    [analysis], [guidance] or [plan] with [session_id] for the others), or
    400 or 500 with the one field [error]. *)
Theorem responses_shape (body : App.request_body) (uuid4 : string)
    (session : list (string * Py.value)) :
  let shape (r : App.response) (fields : list string) : Prop :=
    (snd r = 200 /\ map fst (fst r) = fields)
    \/ ((snd r = 400 \/ snd r = 500) /\ map fst (fst r) = ["error"]) in
  shape (fst (chat body uuid4 session)) ["response"; "agent"; "session_id"]
  /\ shape (analyze_resume body) ["analysis"; "session_id"]
  /\ shape (career_guidance body) ["guidance"; "session_id"]
  /\ shape (learning_plan body) ["plan"; "session_id"].
Proof.
  cbv zeta.
  assert (Herr : forall (text : Py.value) (fields : list string),
             (snd (App.error text 500) = 200 /\ map fst (fst (App.error text 500)) = fields)
             \/ ((snd (App.error text 500) = 400 \/ snd (App.error text 500) = 500)
                 /\ map fst (fst (App.error text 500)) = ["error"])).
  { intros text fields. right. split; [right|]; reflexivity. }
  assert (Hreply : forall key reply,
             (snd (App.reply_of key [] reply) = 200
              /\ map fst (fst (App.reply_of key [] reply)) = [key; "session_id"])
             \/ ((snd (App.reply_of key [] reply) = 400
                  \/ snd (App.reply_of key [] reply) = 500)
                 /\ map fst (fst (App.reply_of key [] reply)) = ["error"])).
  { intros key reply.
    destruct (reply_of_shape key [] reply) as [[H1 H2] | [H1 H2]];
      [left | right]; split; auto. }
  unfold chat, analyze_resume, career_guidance, learning_plan,
    App.chat, App.analyze_resume, App.career_guidance, App.learning_plan.
  destruct body as [data | text]; [|repeat split; apply Herr].
  destruct data as [| b | z | str | l | d]; try (repeat split; apply Herr). simpl.
  split; [|split; [|split]].
  - destruct (chat_with_shape agents invoke_agent
                (Py.get d "message" (Py.PyStr "")) (Py.get d "agent" (Py.PyStr "supervisor"))
                uuid4 session) as [[H1 H2] | [_ [H1 H2]]];
      [left | right]; split; assumption.
  - destruct (negb (Py.truthy (Py.get d "resume_text" (Py.PyStr ""))));
      [right; split; [left|]; reflexivity | apply Hreply].
  - apply Hreply.
  - destruct (negb (Py.truthy (Py.get d "skills_gap" (Py.PyList [])))
              || negb (Py.truthy (Py.get d "target_role" (Py.PyStr ""))));
      [right; split; [left|]; reflexivity | apply Hreply].
Qed.

End OtherHandlers.
